(** * proposal-maker: a shallow embedding of the generation pipeline

    The development follows the TypeScript sources of the application:
    - [src/lib/utils.ts] : [encrypt] and [decrypt];
    - [src/models/User.ts] : the account schema, its hooks and
      [getDecryptedApiKey];
    - [src/pages/api/settings.ts], lines 1-88 : the credential settings
      route;
    - [src/pages/api/settings.ts], lines 88-297 : the text-to-deck route
      served at [/api/text-to-json], with its [callGroqAPI];
    - [src/pages/api/design-library.ts], lines 209-470 : the design-library
      route with [callGroqVisionAPI] (lines 1-209 hold an earlier text of
      the same route, with the same checks);
    - [src/pages/api/generate-html-presentation.ts], lines 1-344 : the
      deck-to-HTML route that calls the model;
    - [src/pages/proposal/[shareableLink].tsx], lines 1-77 : the public page
      of a shared proposal, which tracks its views;
    - [src/pages/settings.tsx], lines 920-996 : the proposals route;
    - [src/unnamed/part_001] : the schemas of design libraries, proposals
      and templates;
    - [src/unnamed/part_003] : the system-prompts route, [PUT] and [DELETE];
    - [src/unnamed/part_004], lines 1-211 : the improvement route.

    Strings are Rocq strings holding the text in UTF-8.  The patterns the
    program searches for ([{text}], [$], [:], [gsk_], hexadecimal digits) are
    ASCII, so searching bytes and searching UTF-16 code units agree.
    Effects are explicit: a handler takes the state of the world (the
    collections of the document store and the log of outbound requests) and
    returns its HTTP response with the new state. *)

From Stdlib Require Import String Ascii List ZArith NArith QArith Qround Lia Bool.
From stdpp Require Import base option list gmap strings pretty.

Import ListNotations.
Set Warnings "-register-all".
Local Open Scope string_scope.
Local Open Scope list_scope.

(** ** Outcomes of JavaScript computations *)

(** A computation either returns or throws an [Error] with a message. *)
Inductive outcome (A : Type) : Type :=
| Return (a : A)
| Throw (message : string).
Arguments Return {A} a.
Arguments Throw {A} message.

Definition obind {A B} (m : outcome A) (k : A -> outcome B) : outcome B :=
  match m with
  | Return a => k a
  | Throw e => Throw e
  end.

Notation "'do!' x <- m 'in' k" := (obind m (fun x => k))
  (at level 10, x name, m at level 100, k at level 200).

(** ** The JavaScript runtime *)

Module JS.

Definition dquote : string := String "034"%char "".
Definition backslash : string := String "092"%char "".
Definition newline : string := String "010"%char "".

(** Values produced by [JSON.parse].  A number is carried by the decimal
    text that [Number::toString] prints for it (both zeroes print [0]); the
    program only tests numbers for truthiness and serializes them.  The
    fields of an object are its own properties, each name once, in the
    order the engine enumerates them. *)
Inductive json : Type :=
| JNull
| JBool (b : bool)
| JNum (repr : string)
| JStr (s : string)
| JArr (items : list json)
| JObj (fields : list (string * json)).

(** A JavaScript value read from parsed JSON: [None] is [undefined]. *)
Definition value : Type := option json.

(** [ToBoolean]. *)
Definition truthy (v : json) : bool :=
  match v with
  | JNull => false
  | JBool b => b
  | JNum r => negb (String.eqb r "0" || String.eqb r "NaN")
  | JStr s => negb (String.eqb s "")
  | JArr _ | JObj _ => true
  end.

Definition truthy_value (v : value) : bool :=
  match v with
  | None => false
  | Some j => truthy j
  end.

(** [a || b] on a value read from JSON. *)
Definition or_else (a : value) (b : json) : json :=
  match a with
  | Some j => if truthy j then j else b
  | None => b
  end.

(** [v] when it is truthy. *)
Definition truthy_of (v : value) : option json :=
  match v with
  | Some j => if truthy j then Some j else None
  | None => None
  end.

(** [typeof v === 'object'] : objects, arrays and [null]. *)
Definition typeof_object (v : json) : bool :=
  match v with
  | JNull | JArr _ | JObj _ => true
  | JBool _ | JNum _ | JStr _ => false
  end.

Definition isArray (v : value) : bool :=
  match v with
  | Some (JArr _) => true
  | _ => false
  end.

Fixpoint lookup_field (k : string) (fs : list (string * json)) : value :=
  match fs with
  | [] => None
  | (k', v) :: fs' => if String.eqb k k' then Some v else lookup_field k fs'
  end.

(** [v.k] for a property name [k] that no prototype defines (every name
    the program reads is such a name).  Reading a property of [null]
    throws a [TypeError]; a primitive or an array has no such property. *)
Definition prop (v : json) (k : string) : outcome value :=
  match v with
  | JNull => Throw "TypeError: Cannot read properties of null"
  | JObj fs => Return (lookup_field k fs)
  | _ => Return None
  end.

(** [o.k = v] on an object literal under construction: an existing
    property keeps its place, a new one goes last. *)
Fixpoint set_field (k : string) (v : json) (fs : list (string * json))
  : list (string * json) :=
  match fs with
  | [] => [(k, v)]
  | (k', v') :: fs' =>
      if String.eqb k k' then (k, v) :: fs' else (k', v') :: set_field k v fs'
  end.

Fixpoint indexed {A} (i : nat) (l : list A) : list (string * A) :=
  match l with
  | [] => []
  | x :: l' => (pretty i, x) :: indexed (S i) l'
  end.

Fixpoint chars (s : string) : list json :=
  match s with
  | EmptyString => []
  | String c s' => JStr (String c "") :: chars s'
  end.

(** The own enumerable properties copied by the spread [{...v}]: those of
    an object, the elements of an array, the characters of a string
    (per byte here, which is per code unit for ASCII text), and none for
    [null], a boolean or a number. *)
Definition spread (v : json) : list (string * json) :=
  match v with
  | JObj fs => fs
  | JArr items => indexed 0 items
  | JStr s => indexed 0 (chars s)
  | JNull | JBool _ | JNum _ => []
  end.

(** *** [JSON.stringify (v, null, 2)] *)

Definition hex_digit (n : N) : ascii :=
  match n with
  | 0 => "0" | 1 => "1" | 2 => "2" | 3 => "3" | 4 => "4" | 5 => "5"
  | 6 => "6" | 7 => "7" | 8 => "8" | 9 => "9" | 10 => "a" | 11 => "b"
  | 12 => "c" | 13 => "d" | 14 => "e" | _ => "f"
  end%N%char.

(** [QuoteJSONString] on one character. *)
Definition quote_char (c : ascii) : string :=
  let n := N_of_ascii c in
  if N.eqb n 34 then backslash +:+ dquote
  else if N.eqb n 92 then backslash +:+ backslash
  else if N.eqb n 8 then backslash +:+ "b"
  else if N.eqb n 12 then backslash +:+ "f"
  else if N.eqb n 10 then backslash +:+ "n"
  else if N.eqb n 13 then backslash +:+ "r"
  else if N.eqb n 9 then backslash +:+ "t"
  else if N.ltb n 32 then
    backslash +:+ "u00" +:+ String (hex_digit (n / 16)) (String (hex_digit (n mod 16)) "")
  else String c "".

Fixpoint quote_body (s : string) : string :=
  match s with
  | EmptyString => ""
  | String c s' => quote_char c +:+ quote_body s'
  end.

Definition quote (s : string) : string := dquote +:+ quote_body s +:+ dquote.

Fixpoint join (sep : string) (parts : list string) : string :=
  match parts with
  | [] => ""
  | [p] => p
  | p :: ps => p +:+ sep +:+ join sep ps
  end.

(** [SerializeJSONProperty] with a gap of two spaces; [indent] is the
    current indentation.  A number that is not finite prints [null]. *)
Fixpoint stringify_at (indent : string) (v : json) {struct v} : string :=
  let inner := indent +:+ "  " in
  match v with
  | JNull => "null"
  | JBool true => "true"
  | JBool false => "false"
  | JNum r =>
      if String.eqb r "Infinity" || String.eqb r "-Infinity" || String.eqb r "NaN"
      then "null" else r
  | JStr s => quote s
  | JArr [] => "[]"
  | JArr items =>
      "[" +:+ newline +:+ inner
      +:+ join ("," +:+ newline +:+ inner) (List.map (stringify_at inner) items)
      +:+ newline +:+ indent +:+ "]"
  | JObj [] => "{}"
  | JObj fields =>
      "{" +:+ newline +:+ inner
      +:+ join ("," +:+ newline +:+ inner)
           (List.map (fun kv => quote (fst kv) +:+ ": " +:+ stringify_at inner (snd kv)) fields)
      +:+ newline +:+ indent +:+ "}"
  end.

Definition stringify_pretty (v : json) : string := stringify_at "" v.

(** *** [String.prototype.replace] with a string pattern *)

Fixpoint drop (n : nat) (s : string) : string :=
  match n, s with
  | O, _ => s
  | S n', String _ s' => drop n' s'
  | S _, EmptyString => ""
  end.

(** The text before and after the first occurrence of [pat] in [s]. *)
Fixpoint split_first (pat s : string) : option (string * string) :=
  if String.prefix pat s then Some ("", drop (String.length pat) s)
  else match s with
       | EmptyString => None
       | String c s' =>
           match split_first pat s' with
           | Some (before, after) => Some (String c before, after)
           | None => None
           end
       end.

(** [GetSubstitution] for a string pattern: there are no captures, so of
    the [$] forms only [$$], [$&], [$`] and [$'] are expanded; [$] before
    anything else, digits included, stays as it is. *)
Fixpoint get_substitution (matched before after repl : string) : string :=
  match repl with
  | EmptyString => ""
  | String "$" (String "$" rest) => "$" +:+ get_substitution matched before after rest
  | String "$" (String "&" rest) => matched +:+ get_substitution matched before after rest
  | String "$" (String "`" rest) => before +:+ get_substitution matched before after rest
  | String "$" (String "'" rest) => after +:+ get_substitution matched before after rest
  | String c rest => String c (get_substitution matched before after rest)
  end.

(** The number of places of [s] at which [pat] occurs. *)
Fixpoint occurrences (pat s : string) : nat :=
  ((if String.prefix pat s then 1 else 0)
   + match s with
     | EmptyString => 0
     | String _ s' => occurrences pat s'
     end)%nat.

(** No [$] occurs in [s]. *)
Fixpoint dollar_free (s : string) : bool :=
  match s with
  | EmptyString => true
  | String c s' => negb (Ascii.eqb c "$") && dollar_free s'
  end.

(** [s.replace (pat, repl)] : only the first occurrence is replaced. *)
Definition replace (s pat repl : string) : string :=
  match split_first pat s with
  | None => s
  | Some (before, after) => before +:+ get_substitution pat before after repl +:+ after
  end.

Definition startsWith (s pre : string) : bool := String.prefix pre s.

(** [s.includes (sub)]. *)
Definition includes (s sub : string) : bool :=
  match split_first sub s with
  | Some _ => true
  | None => false
  end.

Definition is_space (c : ascii) : bool :=
  let n := N_of_ascii c in
  (N.eqb n 32 || (N.leb 9 n && N.leb n 13))%bool.

Fixpoint trim_start (s : string) : string :=
  match s with
  | String c s' => if is_space c then trim_start s' else s
  | EmptyString => ""
  end.

Fixpoint trim_end (s : string) : string :=
  match s with
  | EmptyString => ""
  | String c s' =>
      match trim_end s' with
      | EmptyString => if is_space c then "" else String c ""
      | t => String c t
      end
  end.

(** [s.trim ()] over the ASCII white space. *)
Definition trim (s : string) : string := trim_end (trim_start s).

(** [s.replace (/pat/g, repl)] for a pattern without special characters
    and a non-empty [pat] : every occurrence, left to right, without
    overlap.  [seen] is the text before the current position, [skip] the
    number of characters of the current match still to pass. *)
Fixpoint replace_all_from (pat repl seen : string) (skip : nat) (s : string) : string :=
  match s with
  | EmptyString => ""
  | String c s' =>
      match skip with
      | S k => replace_all_from pat repl (seen +:+ String c "") k s'
      | O =>
          if String.prefix pat s then
            get_substitution pat seen (drop (String.length pat) s) repl
            +:+ replace_all_from pat repl (seen +:+ String c "") (String.length pat - 1) s'
          else String c (replace_all_from pat repl (seen +:+ String c "") 0 s')
      end
  end.

Definition replace_all (s pat repl : string) : string := replace_all_from pat repl "" 0 s.

(** [ToString], as a template literal applies it. *)
Fixpoint to_string (v : json) : string :=
  match v with
  | JNull => "null"
  | JBool true => "true"
  | JBool false => "false"
  | JNum r => r
  | JStr s => s
  | JArr items =>
      join ","
        (List.map (fun x => match x with JNull => "" | _ => to_string x end) items)
  | JObj _ => "[object Object]"
  end.

End JS.

(** ** Buffers and the hexadecimal encoding *)

Module Buffer.

Definition buffer : Type := list Byte.byte.

(** [Buffer.from (s, 'utf8')] and [buf.toString ('utf8')] : the text is held
    in UTF-8, so both are the identity on the bytes of a text.  (Bytes that
    are not UTF-8 would be decoded with replacement characters; the
    statements below only decode what was encoded.) *)
Definition from_utf8 (s : string) : buffer := list_byte_of_string s.
Definition to_utf8 (b : buffer) : string := string_of_list_byte b.

Definition hex_of_byte (b : Byte.byte) : string :=
  let n := Byte.to_N b in
  String (JS.hex_digit (n / 16)) (String (JS.hex_digit (n mod 16)) "").

(** [buf.toString ('hex')] : two lowercase digits per byte. *)
Fixpoint to_hex (b : buffer) : string :=
  match b with
  | [] => ""
  | x :: b' => hex_of_byte x +:+ to_hex b'
  end.

Definition hex_value (c : ascii) : option N :=
  let n := N_of_ascii c in
  if (N.leb 48 n && N.leb n 57)%bool then Some (n - 48)%N
  else if (N.leb 97 n && N.leb n 102)%bool then Some (n - 87)%N
  else if (N.leb 65 n && N.leb n 70)%bool then Some (n - 55)%N
  else None.

(** [Buffer.from (s, 'hex')] : pairs of digits are decoded until the first
    pair that is not hexadecimal; a trailing single digit is dropped. *)
Fixpoint from_hex (s : string) : buffer :=
  match s with
  | String c1 (String c2 rest) =>
      match hex_value c1, hex_value c2 with
      | Some h, Some l =>
          match Byte.of_N (16 * h + l) with
          | Some b => b :: from_hex rest
          | None => []
          end
      | _, _ => []
      end
  | _ => []
  end.

End Buffer.

(** ** [src/lib/utils.ts] *)

Module Utils.

(** The primitives of Node's [crypto] module and the process environment.
    [cipheriv key iv data] is the output of [createCipheriv ('aes-256-cbc',
    key, iv)] over [update] and [final]; [decipheriv] is its inverse
    operation, [None] when [final] throws (bad padding, truncated input);
    [legacy_decipher password data] is the removed [createDecipher]
    interface, [None] when it throws. *)
Class NodeCrypto : Type := {
  env_ENCRYPTION_KEY : option string;
  scryptSync : string -> string -> nat -> Buffer.buffer;
  cipheriv : Buffer.buffer -> Buffer.buffer -> Buffer.buffer -> Buffer.buffer;
  decipheriv : Buffer.buffer -> Buffer.buffer -> Buffer.buffer -> option Buffer.buffer;
  legacy_decipher : string -> Buffer.buffer -> option Buffer.buffer
}.

(** What AES-256-CBC with PKCS#7 padding guarantees: under one key and one
    16-byte IV, deciphering a ciphertext gives back the plaintext. *)
Class NodeCryptoLaws (C : NodeCrypto) : Prop := {
  decipheriv_cipheriv :
    forall key iv data,
      length iv = 16%nat ->
      decipheriv key iv (cipheriv key iv data) = Some data
}.

(** No [:] occurs in [s]. *)
Fixpoint no_colon (s : string) : bool :=
  match s with
  | EmptyString => true
  | String c s' => negb (Ascii.eqb c ":") && no_colon s'
  end.

Section Utils.
Context {C : NodeCrypto}.

(** [process.env.ENCRYPTION_KEY || "your-secret-key-32-chars-long!!"] *)
Definition ENCRYPTION_KEY : string :=
  match env_ENCRYPTION_KEY with
  | Some k => if String.eqb k "" then "your-secret-key-32-chars-long!!" else k
  | None => "your-secret-key-32-chars-long!!"
  end.

Definition derived_key : Buffer.buffer := scryptSync ENCRYPTION_KEY "salt" 32.

(** [encrypt], with the bytes [crypto.randomBytes (16)] returned passed in
    as [iv].  [createCipheriv] throws on an IV that is not 16 bytes long. *)
Definition encrypt (iv : Buffer.buffer) (text : string) : outcome string :=
  if Nat.eqb (length iv) 16 then
    let encrypted := Buffer.to_hex (cipheriv derived_key iv (Buffer.from_utf8 text)) in
    Return (Buffer.to_hex iv +:+ ":" +:+ encrypted)
  else Throw "Invalid initialization vector".

(** [text.split (":")] *)
Fixpoint split_colon (s : string) : list string :=
  match s with
  | EmptyString => [""]
  | String c s' =>
      if Ascii.eqb c ":" then "" :: split_colon s'
      else match split_colon s' with
           | p :: ps => String c p :: ps
           | [] => [String c ""]
           end
  end.

(** [textParts.shift ()] followed by [textParts.join (":")] *)
Definition shift_join (textParts : list string) : string * string :=
  match textParts with
  | [] => ("", "")
  | p :: ps => (p, JS.join ":" ps)
  end.

(** The [try] block of [decrypt]: [None] when it throws. *)
Definition decrypt_primary (iv : Buffer.buffer) (encryptedText : string) : option string :=
  if Nat.eqb (length iv) 16 then
    match decipheriv derived_key iv (Buffer.from_hex encryptedText) with
    | Some decrypted => Some (Buffer.to_utf8 decrypted)
    | None => None
    end
  else None.

(** The [catch] block of [decrypt]: the old scheme. *)
Definition decrypt_legacy (encryptedText : string) : outcome string :=
  match legacy_decipher ENCRYPTION_KEY (Buffer.from_hex encryptedText) with
  | Some decrypted => Return (Buffer.to_utf8 decrypted)
  | None => Throw "Failed to decrypt API key with both methods"
  end.

Definition decrypt (text : string) : outcome string :=
  let (ivHex, encryptedText) := shift_join (split_colon text) in
  let iv := Buffer.from_hex ivHex in
  match decrypt_primary iv encryptedText with
  | Some decrypted => Return decrypted
  | None => decrypt_legacy encryptedText
  end.

End Utils.
End Utils.

(** ** The document store and the outside world *)

Module Store.

(** [src/models/User.ts] : [groqApiKey] is optional. *)
Record UserDoc : Type := mkUser {
  email : string;
  userName : string;
  password : string;
  groqApiKey : option string
}.

(** The [SystemPrompt] model ([src/unnamed/part_001], third schema). *)
Record SystemPromptDoc : Type := mkSystemPrompt {
  promptName : string;
  promptDescription : string;
  prompt : string;
  isActive : bool;
  category : string;
  version : N;
  promptCreatedBy : string
}.

(** The [DesignLibrary] model ([src/unnamed/part_001], first schema), with
    the [_id] of the document. *)
Record DesignLibraryDoc : Type := mkDesignLibrary {
  libraryId : string;
  libraryName : string;
  libraryDescription : string;
  cssVariables : string;
  analysisResult : string;
  systemPromptId : string;
  createdBy : string
}.

(** The [Proposal] model ([src/unnamed/part_001], second schema).  [views]
    is a count: JavaScript adds to it exactly as long as it is below
    2^53. *)
Record ViewDetail : Type := mkViewDetail {
  ip : string;
  location : string;
  timestamp : N
}.

Record ProposalDoc : Type := mkProposal {
  proposalName : string;
  html : string;
  shareableLink : string;
  owner : string;
  views : N;
  viewDetails : list ViewDetail
}.

(** An outbound [fetch] : the URL, the [Authorization] header and the JSON
    body before [JSON.stringify], for the requests that have them. *)
Record FetchCall : Type := mkFetch {
  url : string;
  authorization : option string;
  requestBody : option JS.json
}.

(** What [data.choices[0]?.message?.content] evaluates to once
    [response.json ()] has resolved: it throws, or it is a text,
    or it is absent. *)
Inductive completion : Type :=
| Unreadable (message : string)
| Content (content : option string).

(** The answer of the remote service to one [fetch]. *)
Inductive reply : Type :=
| NetworkError (message : string)
| Response (ok : bool) (status : N) (statusText : string)
    (text : string) (data : completion).

(** The collections, with documents under their [_id], and the log of the
    outbound requests, oldest first. *)
Record World : Type := mkWorld {
  users : gmap string UserDoc;
  systemPrompts : gmap string SystemPromptDoc;
  designLibraries : list DesignLibraryDoc;
  proposals : list ProposalDoc;
  outbound : list FetchCall
}.

Definition set_users (f : gmap string UserDoc -> gmap string UserDoc) (w : World) : World :=
  mkWorld (f (users w)) (systemPrompts w) (designLibraries w) (proposals w) (outbound w).

Definition set_designLibraries (f : list DesignLibraryDoc -> list DesignLibraryDoc)
  (w : World) : World :=
  mkWorld (users w) (systemPrompts w) (f (designLibraries w)) (proposals w) (outbound w).

Definition set_proposals (f : list ProposalDoc -> list ProposalDoc) (w : World) : World :=
  mkWorld (users w) (systemPrompts w) (designLibraries w) (f (proposals w)) (outbound w).

(** [await fetch (...)] : the request is logged and the remote answers. *)
Definition fetch (remote : FetchCall -> reply) (call : FetchCall) (w : World)
  : reply * World :=
  (remote call,
   mkWorld (users w) (systemPrompts w) (designLibraries w) (proposals w)
     (outbound w ++ [call])).

(** The host: [JSON.parse] ([None] when it throws a [SyntaxError]) and
    Mongoose's cast of a request value to an [ObjectId], the key of a
    document ([None] when the query rejects with a [CastError]). *)
Class Host : Type := {
  JSON_parse : string -> option JS.json;
  castObjectId : JS.json -> option string
}.

(** Mongoose's cast to a [String] path with [trim: true]. *)
Definition castString (v : JS.json) : outcome string :=
  match v with
  | JS.JStr s => Return (JS.trim s)
  | JS.JNum r => Return r
  | JS.JBool true => Return "true"
  | JS.JBool false => Return "false"
  | _ => Throw "CastError: Cast to string failed"
  end.

Section User.
Context {C : Utils.NodeCrypto}.

Definition with_groqApiKey (k : option string) (u : UserDoc) : UserDoc :=
  mkUser (email u) (userName u) (password u) k.

(** The second [pre('save')] hook of the user schema; [isModified] is
    [this.isModified ('groqApiKey')], [iv] the random bytes [encrypt]
    draws.  Mongoose runs it for [doc.save ()] and [Model.create]. *)
Definition pre_save_groqApiKey (isModified : bool) (iv : Buffer.buffer) (u : UserDoc)
  : outcome UserDoc :=
  if negb isModified then Return u
  else match groqApiKey u with
       | Some k =>
           if String.eqb k "" then Return u
           else do! e <- Utils.encrypt iv k in Return (with_groqApiKey (Some e) u)
       | None => Return u
       end.

(** [getDecryptedApiKey] : [None] is [null]. *)
Definition getDecryptedApiKey (u : UserDoc) : option string :=
  match groqApiKey u with
  | None => None
  | Some k =>
      if String.eqb k "" then None
      else match Utils.decrypt k with
           | Return s => Some s
           | Throw _ => None
           end
  end.

(** [User.findByIdAndUpdate (id, { groqApiKey })] : the value is cast by
    the schema and written by an update query.  An update query runs the
    [findOneAndUpdate] middleware, of which the schema registers none; the
    [save] hooks do not run. *)
Definition findByIdAndUpdate_groqApiKey (id : string) (v : JS.json) (w : World)
  : outcome World :=
  do! k <- castString v in
  Return (set_users (fun us => base.alter (with_groqApiKey (Some k)) id us) w).

(** [User.findByIdAndUpdate (id, { $unset: { groqApiKey: 1 } })] *)
Definition findByIdAndUpdate_unset (id : string) (w : World) : World :=
  set_users (fun us => base.alter (with_groqApiKey None) id us) w.

End User.
End Store.

(** ** HTTP requests and responses of the API routes *)

Module Http.

(** [res.status (s).json (body)], and [res.setHeader ("Allow", allow)]
    followed by [res.status (s).end (text)]. *)
Inductive response : Type :=
| Json (status : N) (body : JS.json)
| End_ (status : N) (allow : list string) (text : string).

Definition status_of (r : response) : N :=
  match r with
  | Json s _ => s
  | End_ s _ _ => s
  end.

Definition message (m : string) : JS.json := JS.JObj [("message", JS.JStr m)].

(** [!s] for a string that may be missing. *)
Definition falsy_string (s : option string) : bool :=
  match s with
  | Some s => String.eqb s ""
  | None => true
  end.

(** [!session?.user?.id] *)
Definition session_user (session : option string) : option string :=
  match session with
  | Some id => if String.eqb id "" then None else Some id
  | None => None
  end.

End Http.

(** ** [src/pages/api/settings.ts], lines 88-297 : the text-to-deck route *)

Module TextToJson.
Import Store Http.

Definition q (s : string) : string := JS.dquote +:+ s +:+ JS.dquote.

Definition default_prompt : string :=
  JS.join JS.newline
    [ "Analyze the following text and convert it into a structured JSON format suitable for creating a PowerPoint presentation. ";
      "";
      "The JSON should have this exact structure:";
      "{";
      "  " +:+ q "presentationTitle" +:+ ": " +:+ q "A descriptive title for the presentation" +:+ ",";
      "  " +:+ q "totalSlides" +:+ ": number,";
      "  " +:+ q "slides" +:+ ": [";
      "    {";
      "      " +:+ q "id" +:+ ": " +:+ q "unique-id" +:+ ",";
      "      " +:+ q "title" +:+ ": " +:+ q "Slide title" +:+ ",";
      "      " +:+ q "content" +:+ ": " +:+ q "Main content text" +:+ ",";
      "      " +:+ q "type" +:+ ": " +:+ q "title|content|bullet|image|mixed" +:+ ",";
      "      " +:+ q "bullets" +:+ ": [" +:+ q "bullet point 1" +:+ ", " +:+ q "bullet point 2" +:+ "] // only if type is bullet or mixed";
      "      " +:+ q "imagePlaceholder" +:+ ": " +:+ q "Description of image to be added" +:+ " // only if type is image or mixed";
      "    }";
      "  ]";
      "}";
      "";
      "Guidelines:";
      "- Create logical slide breaks based on topics, sections, or natural content flow";
      "- Use 'title' type for slide titles and introductions";
      "- Use 'content' type for text-heavy slides with paragraphs";
      "- Use 'bullet' type for slides with bullet points";
      "- Use 'image' type when visual content would enhance the slide";
      "- Use 'mixed' type for slides with both text and visual elements";
      "- Include image placeholders when visual content would be beneficial";
      "- Ensure each slide has a clear, descriptive title";
      "- Make content concise but informative";
      "- Structure content logically for presentation flow";
      "";
      "Text to analyze:";
      "{text}";
      "";
      "Return only valid JSON, no additional text or explanations." ].

Definition endpoint : string := "https://api.groq.com/openai/v1/chat/completions".

Definition validModels : list string := ["openai/gpt-oss-20b"; "openai/gpt-oss-120b"].

(** [validModels.includes (model)] *)
Definition validModels_includes (model : string) : bool :=
  existsb (String.eqb model) validModels.

(** The callback of [jsonResponse.slides.map] : [uuid] is what
    [randomUUID ()] would return; the flag tells whether it was called. *)
Definition enhance_slide (uuid : string) (slide : JS.json) : outcome (JS.json * bool) :=
  do! id <- JS.prop slide "id" in
  do! type <- JS.prop slide "type" in
  Return
    (JS.JObj
       (JS.set_field "type" (JS.or_else type (JS.JStr "content"))
          (JS.set_field "id" (JS.or_else id (JS.JStr uuid)) (JS.spread slide))),
     negb (JS.truthy_value id)).

(** [slides.map (...)] , left to right; [n] counts the tokens drawn from
    [randomUUID] so far, [uuid n] being the next one. *)
Fixpoint enhance_slides (uuid : nat -> string) (n : nat) (slides : list JS.json)
  : outcome (list JS.json) :=
  match slides with
  | [] => Return []
  | slide :: rest =>
      do! r <- enhance_slide (uuid n) slide in
      do! rest' <- enhance_slides uuid (if snd r then S n else n) rest in
      Return (fst r :: rest')
  end.

(** The statements of the [try] block after [JSON.parse]. *)
Definition validate_and_enhance (uuid : nat -> string) (jsonResponse : JS.json)
  : outcome JS.json :=
  do! slides <- JS.prop jsonResponse "slides" in
  if negb (JS.truthy_value slides) || negb (JS.isArray slides) then
    Throw "Invalid response structure: missing slides array"
  else
    match slides with
    | Some (JS.JArr items) =>
        do! enhancedSlides <- enhance_slides uuid 0 items in
        do! title <- JS.prop jsonResponse "presentationTitle" in
        Return
          (JS.JObj
             [ ("presentationTitle", JS.or_else title (JS.JStr "Generated Presentation"));
               ("totalSlides", JS.JNum (pretty (length enhancedSlides)));
               ("slides", JS.JArr enhancedSlides) ])
    | _ => Throw "Invalid response structure: missing slides array"
    end.

Section Route.
Context {C : Utils.NodeCrypto} {H : Host}.

(** The [try]/[catch] around the parse: whatever is thrown inside is
    replaced by one error. *)
Definition parse_completion (uuid : nat -> string) (content : string) : outcome JS.json :=
  match JSON_parse content with
  | None => Throw "Invalid JSON response from AI model"
  | Some jsonResponse =>
      match validate_and_enhance uuid jsonResponse with
      | Return r => Return r
      | Throw _ => Throw "Invalid JSON response from AI model"
      end
  end.

(** Template resolution: the first branch of [callGroqAPI]. *)
Definition resolve_prompt (w : World) (text : string) (systemPromptId : JS.value)
  : outcome string :=
  match systemPromptId with
  | Some id =>
      if JS.truthy id then
        match castObjectId id with
        | None => Throw "CastError: Cast to ObjectId failed"
        | Some key =>
            match systemPrompts w !! key with
            | Some systemPrompt =>
                if isActive systemPrompt
                then Return (JS.replace (prompt systemPrompt) "{text}" text)
                else Throw "System prompt not found or inactive"
            | None => Throw "System prompt not found or inactive"
            end
        end
      else Return (JS.replace default_prompt "{text}" text)
  | None => Return (JS.replace default_prompt "{text}" text)
  end.

Definition chat_request (apiKey model prompt_ : string) : FetchCall :=
  mkFetch endpoint (Some ("Bearer " +:+ apiKey))
    (Some (JS.JObj
       [ ("model", JS.JStr model);
         ("messages",
          JS.JArr [JS.JObj [("role", JS.JStr "user"); ("content", JS.JStr prompt_)]]);
         ("max_tokens", JS.JNum "4000");
         ("temperature", JS.JNum "0.7") ])).

Definition callGroqAPI (remote : FetchCall -> reply) (uuid : nat -> string)
  (apiKey text model : string) (systemPromptId : JS.value) (w : World)
  : outcome JS.json * World :=
  match resolve_prompt w text systemPromptId with
  | Throw e => (Throw e, w)
  | Return prompt_ =>
      let (r, w') := fetch remote (chat_request apiKey model prompt_) w in
      match r with
      | NetworkError e => (Throw e, w')
      | Response ok status statusText _ data =>
          if negb ok then
            (Throw ("Groq API error: " +:+ pretty status +:+ " " +:+ statusText), w')
          else
            match data with
            | Unreadable e => (Throw e, w')
            | Content None => (Throw "No response content from Groq API", w')
            | Content (Some content) =>
                if String.eqb content ""
                then (Throw "No response content from Groq API", w')
                else (parse_completion uuid content, w')
            end
      end
  end.

Record Request : Type := mkRequest {
  method : string;
  session : option string;
  body_text : JS.value;
  body_model : JS.value;
  body_systemPromptId : JS.value
}.

(** The [catch] of the handler. *)
Definition on_error (message_ : string) : response :=
  if JS.includes message_ "API key" then
    Json 400 (message "Invalid API key. Please check your Groq API key in settings.")
  else if JS.includes message_ "rate limit" then
    Json 429 (message "Rate limit exceeded. Please try again later.")
  else
    Json 500
      (JS.JObj
         [ ("message", JS.JStr "An error occurred while processing your request");
           ("error", JS.JStr message_) ]).

Definition handler (remote : FetchCall -> reply) (uuid : nat -> string)
  (req : Request) (w : World) : response * World :=
  if negb (String.eqb (method req) "POST") then
    (End_ 405 ["POST"] ("Method " +:+ method req +:+ " Not Allowed"), w)
  else
    match session_user (session req) with
    | None => (Json 401 (message "Unauthorized"), w)
    | Some userId =>
        match body_text req with
        | Some (JS.JStr text) =>
            if String.eqb text "" then (Json 400 (message "Text content is required"), w)
            else
              match body_model req with
              | Some (JS.JStr model) =>
                  if String.eqb model "" then
                    (Json 400 (message "Model selection is required"), w)
                  else if negb (validModels_includes model) then
                    (Json 400 (message "Invalid model selection"), w)
                  else
                    match users w !! userId with
                    | None =>
                        (Json 400 (message
                           "Groq API key is required. Please configure your API key in settings."), w)
                    | Some user =>
                        match groqApiKey user with
                        | None | Some "" =>
                            (Json 400 (message
                               "Groq API key is required. Please configure your API key in settings."), w)
                        | Some _ =>
                            match getDecryptedApiKey user with
                            | None | Some "" =>
                                (Json 500 (message "Error accessing API key"), w)
                            | Some decryptedApiKey =>
                                match callGroqAPI remote uuid decryptedApiKey text model
                                        (body_systemPromptId req) w with
                                | (Return result, w') => (Json 200 result, w')
                                | (Throw e, w') => (on_error e, w')
                                end
                            end
                        end
                    end
              | _ => (Json 400 (message "Model selection is required"), w)
              end
        | _ => (Json 400 (message "Text content is required"), w)
        end
    end.

End Route.
End TextToJson.

(** ** [src/pages/api/design-library.ts], lines 209-470 *)

Module DesignLibrary.
Import Store Http.

Definition endpoint : string := "https://api.groq.com/openai/v1/chat/completions".

(** What [callGroqVisionAPI] returns: the declared type has two strings,
    the fields hold whatever the parsed completion held. *)
Record Tokens : Type := mkTokens {
  tokens_css : JS.json;
  tokens_analysis : JS.json
}.

(** [typeof x === 'object' ? JSON.stringify (x, null, 2) : x] *)
Definition serialize_object (x : JS.json) : JS.json :=
  if JS.typeof_object x then JS.JStr (JS.stringify_pretty x) else x.

(** The statements of the [try] block after [JSON.parse].  Reading a
    property of the parsed completion has no effect, so the six reads are
    made first; they all throw when the completion is [null]. *)
Definition reshape (parsedContent : JS.json) : outcome Tokens :=
  do! css <- JS.prop parsedContent "css" in
  do! implementationNote <- JS.prop parsedContent "implementationNote" in
  do! cssVariables_ <- JS.prop parsedContent "cssVariables" in
  do! analysisResult_ <- JS.prop parsedContent "analysisResult" in
  do! styles <- JS.prop parsedContent "styles" in
  do! analysis <- JS.prop parsedContent "analysis" in
  match JS.truthy_of css, JS.truthy_of implementationNote with
  | Some c, Some note =>
      (* New format with css and implementationNote *)
      Return (mkTokens c (serialize_object note))
  | _, _ =>
      match JS.truthy_of cssVariables_, JS.truthy_of analysisResult_ with
      | Some v, Some a =>
          (* Original expected format *)
          Return (mkTokens v a)
      | _, _ =>
          (* Fallback - try to extract CSS from any available field *)
          let cssContent :=
            JS.or_else css (JS.or_else cssVariables_ (JS.or_else styles (JS.JStr ""))) in
          let analysisContent :=
            JS.or_else implementationNote
              (JS.or_else analysisResult_ (JS.or_else analysis (JS.JStr ""))) in
          Return (mkTokens cssContent (serialize_object analysisContent))
      end
  end.

Section Route.
Context {C : Utils.NodeCrypto} {H : Host}.

Definition parse_tokens (content : string) : outcome Tokens :=
  match JSON_parse content with
  | None => Throw "Invalid JSON response from Groq API"
  | Some parsedContent =>
      match reshape parsedContent with
      | Return r => Return r
      | Throw _ => Throw "Invalid JSON response from Groq API"
      end
  end.

Definition vision_request (apiKey imageBase64 systemPrompt : string) : FetchCall :=
  mkFetch endpoint (Some ("Bearer " +:+ apiKey))
    (Some (JS.JObj
       [ ("model", JS.JStr "meta-llama/llama-4-scout-17b-16e-instruct");
         ("messages",
          JS.JArr
            [ JS.JObj
                [ ("role", JS.JStr "user");
                  ("content",
                   JS.JArr
                     [ JS.JObj [("type", JS.JStr "text"); ("text", JS.JStr systemPrompt)];
                       JS.JObj
                         [ ("type", JS.JStr "image_url");
                           ("image_url",
                            JS.JObj
                              [("url", JS.JStr ("data:image/jpeg;base64," +:+ imageBase64))]) ] ]) ] ]);
         ("max_completion_tokens", JS.JNum "4000");
         ("temperature", JS.JNum "0.7");
         ("response_format", JS.JObj [("type", JS.JStr "json_object")]) ])).

Definition callGroqVisionAPI (remote : FetchCall -> reply)
  (apiKey imageBase64 systemPrompt : string) (w : World) : outcome Tokens * World :=
  let (r, w') := fetch remote (vision_request apiKey imageBase64 systemPrompt) w in
  match r with
  | NetworkError e => (Throw e, w')
  | Response ok status statusText errorText data =>
      if negb ok then
        (Throw ("Groq API error: " +:+ pretty status +:+ " " +:+ statusText
                +:+ " - " +:+ errorText), w')
      else
        match data with
        | Unreadable e => (Throw e, w')
        | Content None => (Throw "No content received from Groq API", w')
        | Content (Some content) =>
            if String.eqb content ""
            then (Throw "No content received from Groq API", w')
            else (parse_tokens content, w')
        end
  end.

(** [imageBase64.length] : base64 text is ASCII, one code unit per byte. *)
Fixpoint length_N (s : string) : N :=
  match s with
  | EmptyString => 0
  | String _ s' => N.succ (length_N s')
  end.

(** [Math.ceil ((imageBase64.length * 3) / 4)] *)
Definition imageSizeInBytes (len : N) : Z :=
  Qceiling ((inject_Z (Z.of_N len) * 3) / 4).

(** [imageSizeInBytes / (1024 * 1024)] *)
Definition imageSizeInMB (len : N) : Q :=
  inject_Z (imageSizeInBytes len) / (1024 * 1024).

(** [imageSizeInMB > 4] *)
Definition image_too_large (len : N) : bool :=
  negb (Qle_bool (imageSizeInMB len) 4).

(** The body of a [POST] : the fields are the strings the client sends,
    [None] when a field is missing. *)
Record PostRequest : Type := mkPost {
  session : option string;
  body_name : option string;
  body_description : option string;
  body_imageBase64 : option string;
  body_systemPromptId : JS.value
}.

(** [DesignLibrary.create] : the schema casts and trims the strings and
    requires them; a failure rejects with a validation error.  [newId] is
    the [_id] the driver generates for the document. *)
Definition create (newId name description : string) (css analysis_ : JS.json)
  (promptKey userId : string) (w : World) : outcome (DesignLibraryDoc * World) :=
  do! c <- castString css in
  do! a <- castString analysis_ in
  match castObjectId (JS.JStr userId) with
  | None => Throw "ValidationError: createdBy"
  | Some uid =>
      if String.eqb (JS.trim name) "" || String.eqb (JS.trim description) ""
         || String.eqb c "" || String.eqb a ""
      then Throw "ValidationError: required"
      else
        let doc :=
          mkDesignLibrary newId (JS.trim name) (JS.trim description) c a promptKey uid in
        Return (doc, set_designLibraries (fun ls => ls ++ [doc]) w)
  end.

Definition document (d : DesignLibraryDoc) : JS.json :=
  JS.JObj
    [ ("_id", JS.JStr (libraryId d));
      ("name", JS.JStr (libraryName d));
      ("description", JS.JStr (libraryDescription d));
      ("cssVariables", JS.JStr (cssVariables d));
      ("analysisResult", JS.JStr (analysisResult d));
      ("systemPromptId", JS.JStr (systemPromptId d));
      ("createdBy", JS.JStr (createdBy d)) ].

(** The [POST] branch of the handler. *)
Definition handler_post (remote : FetchCall -> reply) (newId : string)
  (req : PostRequest) (w : World) : response * World :=
  match session_user (session req) with
  | None => (Json 401 (message "Unauthorized"), w)
  | Some userId =>
      if falsy_string (body_name req) || falsy_string (body_description req)
         || falsy_string (body_imageBase64 req)
         || negb (JS.truthy_value (body_systemPromptId req))
      then (Json 400 (message "Name, description, image, and system prompt are required"), w)
      else
        match body_name req, body_description req, body_imageBase64 req,
              body_systemPromptId req with
        | Some name, Some description, Some imageBase64, Some promptId =>
            match castObjectId promptId with
            | None => (Json 500 (message "Internal Server Error"), w)
            | Some promptKey =>
                match systemPrompts w !! promptKey with
                | None => (Json 400 (message "System prompt not found or inactive"), w)
                | Some systemPrompt =>
                    if negb (isActive systemPrompt) then
                      (Json 400 (message "System prompt not found or inactive"), w)
                    else
                      match users w !! userId with
                      | None => (Json 400 (message "Groq API key not configured"), w)
                      | Some user =>
                          if falsy_string (groqApiKey user) then
                            (Json 400 (message "Groq API key not configured"), w)
                          else
                            match getDecryptedApiKey user with
                            | None => (Json 400 (message "Invalid Groq API key"), w)
                            | Some apiKey =>
                                if String.eqb apiKey "" then
                                  (Json 400 (message "Invalid Groq API key"), w)
                                else if negb (JS.startsWith apiKey "gsk_") then
                                  (Json 400 (message "Invalid Groq API key format"), w)
                                else if N.ltb (length_N imageBase64) 100 then
                                  (Json 400 (message "Invalid image data"), w)
                                else if image_too_large (length_N imageBase64) then
                                  (Json 400 (message "Image too large. Maximum size is 4MB"), w)
                                else
                                  match callGroqVisionAPI remote apiKey imageBase64
                                          (prompt systemPrompt) w with
                                  | (Throw e, w') =>
                                      (Json 400 (message ("Groq API error: " +:+ e)), w')
                                  | (Return result, w') =>
                                      if negb (JS.truthy (tokens_css result))
                                         || negb (JS.truthy (tokens_analysis result))
                                      then
                                        (Json 400
                                           (message "Failed to analyze image. Please try again."),
                                         w')
                                      else
                                        match create newId name description (tokens_css result)
                                                (tokens_analysis result) promptKey userId w' with
                                        | Return (doc, w'') => (Json 201 (document doc), w'')
                                        | Throw _ =>
                                            (Json 500 (message "Internal Server Error"), w')
                                        end
                                  end
                            end
                      end
                end
            end
        | _, _, _, _ => (Json 400 (message "Name, description, image, and system prompt are required"), w)
        end
  end.

(** The request passes every check the handler makes before it looks
    at the size of the image: a session, the four fields, an active system
    prompt, and a stored credential that decrypts to [apiKey], which starts
    with [gsk_]. *)
Definition passes_checks (req : PostRequest) (w : World) (imageBase64 apiKey : string)
  (systemPrompt : SystemPromptDoc) : Prop :=
  exists userId name description promptId promptKey user,
    session_user (session req) = Some userId
    /\ body_name req = Some name /\ name <> ""
    /\ body_description req = Some description /\ description <> ""
    /\ body_imageBase64 req = Some imageBase64 /\ imageBase64 <> ""
    /\ body_systemPromptId req = Some promptId /\ JS.truthy promptId = true
    /\ castObjectId promptId = Some promptKey
    /\ systemPrompts w !! promptKey = Some systemPrompt
    /\ isActive systemPrompt = true
    /\ users w !! userId = Some user
    /\ falsy_string (groqApiKey user) = false
    /\ getDecryptedApiKey user = Some apiKey
    /\ apiKey <> ""
    /\ JS.startsWith apiKey "gsk_" = true.

End Route.
End DesignLibrary.

(** ** [src/pages/api/generate-html-presentation.ts], lines 1-344 *)

Module GenerateHtml.
Import Store Http.

Definition endpoint : string := "https://api.groq.com/openai/v1/chat/completions".

Record Request : Type := mkRequest {
  method : string;
  session : option string;
  body_jsonData : JS.value;
  body_designLibraryId : JS.value
}.

Section Route.
Context {C : Utils.NodeCrypto} {H : Host}.

(** The two template literals of [callGroqAPI] : the fixed system prompt
    and the user prompt built from the deck and the design library. *)
Variable systemPrompt : string.
Variable userPrompt : JS.json -> DesignLibraryDoc -> string.

Definition html_request (apiKey : string) (jsonData : JS.json)
  (designLibrary : DesignLibraryDoc) : FetchCall :=
  mkFetch endpoint (Some ("Bearer " +:+ apiKey))
    (Some (JS.JObj
       [ ("model", JS.JStr "openai/gpt-oss-120b");
         ("messages",
          JS.JArr
            [ JS.JObj [("role", JS.JStr "system"); ("content", JS.JStr systemPrompt)];
              JS.JObj
                [ ("role", JS.JStr "user");
                  ("content", JS.JStr (userPrompt jsonData designLibrary)) ] ]);
         ("max_tokens", JS.JNum "12000");
         ("temperature", JS.JNum "0.3");
         ("response_format", JS.JObj [("type", JS.JStr "text")]) ])).

Definition callGroqAPI (remote : FetchCall -> reply) (apiKey : string)
  (jsonData : JS.json) (designLibrary : DesignLibraryDoc) (w : World)
  : outcome string * World :=
  let (r, w') := fetch remote (html_request apiKey jsonData designLibrary) w in
  match r with
  | NetworkError e => (Throw e, w')
  | Response ok status statusText errorText data =>
      if negb ok then
        (Throw ("Groq API error: " +:+ pretty status +:+ " " +:+ statusText
                +:+ " - " +:+ errorText), w')
      else
        match data with
        | Unreadable e => (Throw e, w')
        | Content None => (Throw "No content received from Groq API", w')
        | Content (Some content) =>
            if String.eqb content ""
            then (Throw "No content received from Groq API", w')
            else (Return content, w')
        end
  end.

Definition findById (key : string) (w : World) : option DesignLibraryDoc :=
  List.find (fun d => String.eqb (libraryId d) key) (designLibraries w).

(** [jsonData.slides.length] *)
Definition slide_count (slides : JS.value) : JS.json :=
  match slides with
  | Some (JS.JArr items) => JS.JNum (pretty (length items))
  | _ => JS.JNull
  end.

Definition handler (remote : FetchCall -> reply) (req : Request) (w : World)
  : response * World :=
  match session_user (session req) with
  | None => (Json 401 (message "Unauthorized"), w)
  | Some userId =>
      if negb (String.eqb (method req) "POST") then
        (Json 405 (message "Method not allowed"), w)
      else
        match body_jsonData req, body_designLibraryId req with
        | Some jsonData, Some designLibraryId =>
            if negb (JS.truthy jsonData) || negb (JS.truthy designLibraryId) then
              (Json 400 (message "JSON data and design library ID are required"), w)
            else
              match JS.prop jsonData "slides", JS.prop jsonData "presentationTitle" with
              | Return slides, Return presentationTitle =>
                  if negb (JS.truthy_value slides) || negb (JS.isArray slides)
                     || negb (JS.truthy_value presentationTitle)
                  then (Json 400 (message "Invalid JSON data structure"), w)
                  else
                    match castObjectId designLibraryId with
                    | None => (Json 500 (message "Internal Server Error"), w)
                    | Some key =>
                        match findById key w with
                        | None => (Json 404 (message "Design library not found"), w)
                        | Some designLibrary =>
                            match users w !! userId with
                            | None => (Json 400 (message "Groq API key not configured"), w)
                            | Some user =>
                                if falsy_string (groqApiKey user) then
                                  (Json 400 (message "Groq API key not configured"), w)
                                else
                                  match getDecryptedApiKey user with
                                  | None => (Json 400 (message "Invalid Groq API key"), w)
                                  | Some apiKey =>
                                      if String.eqb apiKey "" then
                                        (Json 400 (message "Invalid Groq API key"), w)
                                      else if negb (JS.startsWith apiKey "gsk_") then
                                        (Json 400 (message "Invalid Groq API key format"), w)
                                      else
                                        match callGroqAPI remote apiKey jsonData designLibrary w with
                                        | (Return htmlPresentation, w') =>
                                            (Json 200
                                               (JS.JObj
                                                  [ ("html", JS.JStr htmlPresentation);
                                                    ("designLibraryName",
                                                     JS.JStr (libraryName designLibrary));
                                                    ("presentationTitle",
                                                     JS.or_else presentationTitle JS.JNull);
                                                    ("totalSlides", slide_count slides) ]),
                                             w')
                                        | (Throw _, w') =>
                                            (Json 500 (message "Internal Server Error"), w')
                                        end
                                  end
                            end
                        end
                    end
              | _, _ => (Json 500 (message "Internal Server Error"), w)
              end
        | _, _ => (Json 400 (message "JSON data and design library ID are required"), w)
        end
  end.

End Route.
End GenerateHtml.

(** ** [src/pages/api/settings.ts], lines 1-88 : the settings route *)

Module Settings.
Import Store Http.

Record Request : Type := mkRequest {
  method : string;
  session : option string;
  body_groqApiKey : JS.value
}.

Section Route.
Context {C : Utils.NodeCrypto}.

Definition test_request (apiKey : string) : FetchCall :=
  mkFetch "https://api.groq.com/openai/v1/chat/completions"
    (Some ("Bearer " +:+ apiKey))
    (Some (JS.JObj
       [ ("model", JS.JStr "openai/gpt-oss-20b");
         ("messages",
          JS.JArr [JS.JObj [("role", JS.JStr "user"); ("content", JS.JStr "Hello")]]);
         ("max_tokens", JS.JNum "10") ])).

(** [testGroqApiKey] : a rejected [fetch] counts as an invalid key. *)
Definition testGroqApiKey (remote : FetchCall -> reply) (apiKey : string) (w : World)
  : bool * World :=
  let (r, w') := fetch remote (test_request apiKey) w in
  match r with
  | NetworkError _ => (false, w')
  | Response ok _ _ _ _ => (ok, w')
  end.

(** [!!user?.groqApiKey] *)
Definition hasApiKey (user : option UserDoc) : bool :=
  match user with
  | Some u => negb (falsy_string (groqApiKey u))
  | None => false
  end.

Definition handler (remote : FetchCall -> reply) (req : Request) (w : World)
  : response * World :=
  match session_user (session req) with
  | None => (Json 401 (message "Unauthorized"), w)
  | Some userId =>
      if String.eqb (method req) "GET" then
        let user := users w !! userId in
        (Json 200 (JS.JObj [("hasApiKey", JS.JBool (hasApiKey user))]), w)
      else if String.eqb (method req) "PUT" then
        match JS.truthy_of (body_groqApiKey req) with
        | Some groqApiKey_ =>
            let (isValid, w') := testGroqApiKey remote (JS.to_string groqApiKey_) w in
            if negb isValid then (Json 400 (message "Invalid API key"), w')
            else
              match findByIdAndUpdate_groqApiKey userId groqApiKey_ w' with
              | Return w'' =>
                  (Json 200
                     (JS.JObj
                        [ ("message", JS.JStr "API key updated successfully");
                          ("hasApiKey", JS.JBool true) ]),
                   w'')
              | Throw _ => (Json 500 (message "Internal Server Error"), w')
              end
        | None =>
            (Json 200
               (JS.JObj
                  [ ("message", JS.JStr "API key removed successfully");
                    ("hasApiKey", JS.JBool false) ]),
             findByIdAndUpdate_unset userId w)
        end
      else
        (End_ 405 ["GET"; "PUT"] ("Method " +:+ method req +:+ " Not Allowed"), w)
  end.

End Route.
End Settings.

(** ** [src/pages/proposal/[shareableLink].tsx], lines 1-77 *)

Module ProposalPage.
Import Store.

(** The request of a visitor: the link in the path, the [Host] and
    [X-Forwarded-For] headers and the address of the socket. *)
Record Visit : Type := mkVisit {
  param_shareableLink : string;
  header_host : string;
  header_x_forwarded_for : option string;
  remoteAddress : option string
}.

(** [locationData] with its three fields as the template literal prints
    them. *)
Record GeoData : Type := mkGeoData {
  city : string;
  region : string;
  country_name : string
}.

(** The answer of the location service to one lookup: [fetch] rejects, or
    it resolves to a response whose body [json ()] may fail to read
    ([None]). *)
Inductive geo_reply : Type :=
| GeoError (message : string)
| GeoResponse (ok : bool) (locationData : option GeoData).

(** What [getServerSideProps] returns. *)
Inductive page : Type :=
| NotFound
| Props (name html : string).

(** [Proposal.findOne ({ shareableLink })] : the place and the document. *)
Fixpoint findOne (link : string) (i : nat) (ps : list ProposalDoc)
  : option (nat * ProposalDoc) :=
  match ps with
  | [] => None
  | p :: ps' =>
      if String.eqb (shareableLink p) link then Some (i, p) else findOne link (S i) ps'
  end.

(** [req.headers['x-forwarded-for'] || req.socket.remoteAddress || 'unknown'] *)
Definition visitor_ip (v : Visit) : string :=
  match header_x_forwarded_for v with
  | Some x => if negb (String.eqb x "") then x else
      match remoteAddress v with
      | Some a => if negb (String.eqb a "") then a else "unknown"
      | None => "unknown"
      end
  | None =>
      match remoteAddress v with
      | Some a => if negb (String.eqb a "") then a else "unknown"
      | None => "unknown"
      end
  end.

Definition lookup_request (ip_ : string) : FetchCall :=
  mkFetch ("https://ipapi.co/" +:+ ip_ +:+ "/json/") None None.

(** The [try]/[catch] around the lookup: [location] starts as
    ['unknown'] and is assigned only when the response is [ok] and its body
    reads. *)
Definition resolve_location (geo : geo_reply) : string :=
  match geo with
  | GeoResponse true (Some locationData) =>
      city locationData +:+ ", " +:+ region locationData +:+ ", "
      +:+ country_name locationData
  | _ => "unknown"
  end.

(** The lookup did not give a location: [fetch] rejected, the response
    was not [ok], or its body did not read. *)
Definition lookup_failed (geo : geo_reply) : bool :=
  match geo with
  | GeoResponse true (Some _) => false
  | _ => true
  end.

(** [proposal.views += 1; proposal.viewDetails.push ({...})] *)
Definition track (ip_ location_ : string) (now : N) (p : ProposalDoc) : ProposalDoc :=
  mkProposal (proposalName p) (html p) (shareableLink p) (owner p)
    (views p + 1)
    (viewDetails p ++ [mkViewDetail ip_ location_ now]).

(** [getServerSideProps] ; [geo] is the answer of the location service to
    this visit and [now] the clock. *)
Definition getServerSideProps (geo : geo_reply) (now : N) (v : Visit) (w : World)
  : page * World :=
  match findOne (param_shareableLink v) 0 (proposals w) with
  | None => (NotFound, w)
  | Some (i, proposal) =>
      let ip_ := visitor_ip v in
      let w1 :=
        mkWorld (users w) (systemPrompts w) (designLibraries w) (proposals w)
          (outbound w ++ [lookup_request ip_]) in
      let location_ := resolve_location geo in
      let proposal' := track ip_ location_ now proposal in
      let w2 := set_proposals (fun ps => <[i := proposal']> ps) w1 in
      let updatedHtml := JS.replace_all (html proposal') "localhost:3000" (header_host v) in
      (Props (proposalName proposal') updatedHtml, w2)
  end.

End ProposalPage.

(** ** Vocabulary of the statements *)

Module Deck.
Import JS.

(** The property [k] of a value that is not [null]. *)
Definition field (k : string) (v : json) : value :=
  match v with
  | JObj fs => lookup_field k fs
  | _ => None
  end.

(** The entry has no usable [id] : [randomUUID] is called for it. *)
Definition lacks_id (slide : json) : bool := negb (truthy_value (field "id" slide)).

(** The number of tokens drawn for the entries before the [i]-th. *)
Definition drawn_before (items : list json) (i : nat) : nat :=
  length (filter (fun s => lacks_id s = true) (take i items)).

(** The slide made from an entry, given the token at hand. *)
Definition enhanced (token : string) (slide : json) : json :=
  JObj
    (set_field "type" (or_else (field "type" slide) (JStr "content"))
       (set_field "id" (or_else (field "id" slide) (JStr token)) (spread slide))).

(** [result] is the deck made from the entries [items] : a title, the
    number of entries as [totalSlides], and one slide per entry in the
    order of the entries; each slide has a truthy [id], the one of its
    entry when that is truthy and otherwise the token drawn for it; its
    [type] is the one of the entry or ['content']; every other property is
    that of the entry.  Two entries that both need a token get different
    draws. *)
Definition normalizes (uuid : nat -> string) (items : list json) (result : json) : Prop :=
  exists title out,
    result
    = JObj
        [ ("presentationTitle", title);
          ("totalSlides", JNum (pretty (length items)));
          ("slides", JArr out) ]
    /\ length out = length items
    /\ (forall i slide, items !! i = Some slide ->
          exists fields id,
            out !! i = Some (JObj fields)
            /\ lookup_field "id" fields = Some id
            /\ truthy id = true
            /\ (truthy_value (field "id" slide) = true -> field "id" slide = Some id)
            /\ (lacks_id slide = true -> id = JStr (uuid (drawn_before items i)))
            /\ lookup_field "type" fields
               = Some (or_else (field "type" slide) (JStr "content"))
            /\ (forall k, k <> "id" -> k <> "type" ->
                  lookup_field k fields = lookup_field k (spread slide)))
    /\ (forall i i' s, (i < i')%nat -> items !! i = Some s -> lacks_id s = true ->
          is_Some (items !! i') ->
          (drawn_before items i < drawn_before items i')%nat).

End Deck.

(** ** A sample world

    Stand-ins for the primitives of the platform, to run the program on
    examples: a cipher that reverses the bytes, and a parser that knows a
    table of completions. *)

Module Sample.
Import Store.

Definition crypto : Utils.NodeCrypto :=
  {| Utils.env_ENCRYPTION_KEY := None;
     Utils.scryptSync := fun _ _ n => repeat Byte.x00 n;
     Utils.cipheriv := fun _ _ data => rev data;
     Utils.decipheriv := fun _ _ data => Some (rev data);
     Utils.legacy_decipher := fun _ _ => None |}.

Definition iv : Buffer.buffer := repeat Byte.x2a 16.

Fixpoint assoc (table : list (string * JS.json)) (s : string) : option JS.json :=
  match table with
  | [] => None
  | (k, v) :: rest => if String.eqb s k then Some v else assoc rest s
  end.

(** The tokens of [randomUUID], numbered. *)
Definition uuid (n : nat) : string := "uuid-" +:+ pretty n.

(** The completion of the first end-to-end scenario, with a
    [totalSlides] that disagrees with the two slides. *)
Definition q1_update : JS.json :=
  JS.JObj
    [ ("presentationTitle", JS.JStr "Q1 Update");
      ("totalSlides", JS.JNum "7");
      ("slides",
       JS.JArr
         [ JS.JObj
             [ ("title", JS.JStr "Revenue"); ("content", JS.JStr "Grew 20%");
               ("type", JS.JStr "content") ];
           JS.JObj
             [ ("id", JS.JStr "hiring"); ("title", JS.JStr "Hiring");
               ("content", JS.JStr "5 engineers") ] ]) ].

(** A completion whose only slide entry is [null], and one without a
    title. *)
Definition null_entry : JS.json := JS.JObj [("slides", JS.JArr [JS.JNull])].
Definition untitled : JS.json := JS.JObj [("slides", JS.JArr [])].

Definition completions : list (string * JS.json) :=
  [ ("q1", q1_update); ("null-entry", null_entry); ("untitled", untitled) ].

(** An account whose stored credential is the envelope of [plain], a
    stored template, and the world that holds them. *)
Definition stored (plain : string) : string :=
  match @Utils.encrypt crypto iv plain with
  | Return envelope => envelope
  | Throw _ => ""
  end.

Definition account (plain : string) : UserDoc :=
  mkUser "ada@example.org" "Ada" "$2a$12$hash" (Some (stored plain)).

Definition summary : SystemPromptDoc :=
  mkSystemPrompt "summary" "Summarize a text" "Summarize: {text}" true "presentation" 1 "u1".

Definition world (plain : string) : World :=
  mkWorld {[ "u1" := account plain ]} {[ "p1" := summary ]} [] [] [].

(** A remote service that answers every request with one completion. *)
Definition remote (content : string) : FetchCall -> reply :=
  fun _ => Response true 200 "OK" "" (Content (Some content)).

Definition deck_request (model : string) : TextToJson.Request :=
  TextToJson.mkRequest "POST" (Some "u1") (Some (JS.JStr "hello"))
    (Some (JS.JStr model)) None.

(** A base64 text of [n] characters. *)
Definition image (n : N) : string := N.iter n (String "A") "".

Definition design_request (imageBase64 : string) : DesignLibrary.PostRequest :=
  DesignLibrary.mkPost (Some "u1") (Some "Brand") (Some "Brand tokens")
    (Some imageBase64) (Some (JS.JStr "p1")).

(** A shared proposal with three earlier views, and two visits to it. *)
Definition proposal : ProposalDoc :=
  mkProposal "Offer" "<h1>Offer</h1>" "5f3a9c2b1d4e6f70" "u1" 3
    [ mkViewDetail "10.0.0.1" "Oslo, Oslo, Norway" 100;
      mkViewDetail "10.0.0.2" "unknown" 200;
      mkViewDetail "10.0.0.1" "Oslo, Oslo, Norway" 300 ].

Definition other_proposal : ProposalDoc :=
  mkProposal "Draft" "<p>Draft</p>" "00aa11bb22cc33dd" "u1" 0 [].

Definition shared_world : World :=
  mkWorld {[ "u1" := account "gsk_live" ]} ∅ [] [other_proposal; proposal] [].

Definition visit (address : string) : ProposalPage.Visit :=
  ProposalPage.mkVisit "5f3a9c2b1d4e6f70" "proposals.example.org" None (Some address).

Definition paris : ProposalPage.geo_reply :=
  ProposalPage.GeoResponse true
    (Some (ProposalPage.mkGeoData "Paris" "Ile-de-France" "France")).

(** The two shapes of a design-tokens completion, with the same content,
    and the first with a note that is a plain text. *)
Definition new_shape : JS.json :=
  JS.JObj
    [ ("css", JS.JStr ":root{--c:#fff;}");
      ("implementationNote", JS.JObj [("approach", JS.JStr "grid")]) ].

Definition original_shape : JS.json :=
  JS.JObj
    [ ("cssVariables", JS.JStr ":root{--c:#fff;}");
      ("analysisResult", JS.JObj [("approach", JS.JStr "grid")]) ].

Definition token_completions : list (string * JS.json) :=
  [ ("new", new_shape); ("original", original_shape) ].

(** A [PUT] of a new credential to the settings route. *)
Definition put_request (key : string) : Settings.Request :=
  Settings.mkRequest "PUT" (Some "u1") (Some (JS.JStr key)).

Definition host (table : list (string * JS.json)) : Host :=
  {| JSON_parse := assoc table;
     castObjectId := fun v => match v with JS.JStr s => Some s | _ => None end |}.

End Sample.

(** ** More of the routes *)

(** *** Texts as JavaScript measures them *)

Module Text.

(** [s.length] : the number of UTF-16 code units of a text held in UTF-8.
    Every byte that is not a continuation byte starts a code point, and a
    code point written on four bytes takes two code units. *)
Fixpoint length_utf16 (s : string) : N :=
  match s with
  | EmptyString => 0
  | String c s' =>
      let n := N_of_ascii c in
      ((if (N.leb 128 n && N.ltb n 192)%bool then 0
        else if N.leb 240 n then 2 else 1)
       + length_utf16 s')%N
  end.

(** Mongoose's cast to a [String] path without [trim]. *)
Definition castStringRaw (v : JS.json) : outcome string :=
  match v with
  | JS.JStr s => Return s
  | JS.JNum r => Return r
  | JS.JBool true => Return "true"
  | JS.JBool false => Return "false"
  | _ => Throw "CastError: Cast to string failed"
  end.

End Text.

(** *** The improvement route ([src/unnamed/part_004], lines 1-211) *)

Module ImproveHtml.
Import Store Http.

Definition endpoint : string := "https://api.groq.com/openai/v1/chat/completions".

Record Request : Type := mkRequest {
  method : string;
  session : option string;
  body_html : JS.value;
  body_prompt : JS.value
}.

Section Route.
Context {C : Utils.NodeCrypto}.

(** The two template literals of [callGroqAPI] : the fixed system prompt
    and the user prompt built from the page and the request. *)
Variable systemPrompt : string.
Variable userPrompt : string -> string -> string.

Definition improve_request (apiKey html_ improvementPrompt : string) : FetchCall :=
  mkFetch endpoint (Some ("Bearer " +:+ apiKey))
    (Some (JS.JObj
       [ ("model", JS.JStr "openai/gpt-oss-120b");
         ("messages",
          JS.JArr
            [ JS.JObj [("role", JS.JStr "system"); ("content", JS.JStr systemPrompt)];
              JS.JObj
                [ ("role", JS.JStr "user");
                  ("content", JS.JStr (userPrompt html_ improvementPrompt)) ] ]);
         ("max_tokens", JS.JNum "15000");
         ("temperature", JS.JNum "0.3");
         ("response_format", JS.JObj [("type", JS.JStr "text")]) ])).

Definition callGroqAPI (remote : FetchCall -> reply)
  (apiKey html_ improvementPrompt : string) (w : World) : outcome string * World :=
  let (r, w') := fetch remote (improve_request apiKey html_ improvementPrompt) w in
  match r with
  | NetworkError e => (Throw e, w')
  | Response ok status statusText errorText data =>
      if negb ok then
        (Throw ("Groq API error: " +:+ pretty status +:+ " " +:+ statusText
                +:+ " - " +:+ errorText), w')
      else
        match data with
        | Unreadable e => (Throw e, w')
        | Content None => (Throw "No content received from Groq API", w')
        | Content (Some content) =>
            if String.eqb content ""
            then (Throw "No content received from Groq API", w')
            else (Return content, w')
        end
  end.

Definition handler (remote : FetchCall -> reply) (req : Request) (w : World)
  : response * World :=
  match session_user (session req) with
  | None => (Json 401 (message "Unauthorized"), w)
  | Some userId =>
      if negb (String.eqb (method req) "POST") then
        (Json 405 (message "Method not allowed"), w)
      else if negb (JS.truthy_value (body_html req))
              || negb (JS.truthy_value (body_prompt req)) then
        (Json 400 (message "HTML content and improvement prompt are required"), w)
      else
        match body_html req with
        | Some (JS.JStr html_) =>
            if N.ltb (Text.length_utf16 html_) 100 then
              (Json 400 (message "Invalid HTML content"), w)
            else
              match body_prompt req with
              | Some (JS.JStr prompt_) =>
                  if N.ltb (Text.length_utf16 (JS.trim prompt_)) 10 then
                    (Json 400
                       (message "Improvement prompt must be at least 10 characters long"), w)
                  else
                    match users w !! userId with
                    | None => (Json 400 (message "Groq API key not configured"), w)
                    | Some user =>
                        if falsy_string (groqApiKey user) then
                          (Json 400 (message "Groq API key not configured"), w)
                        else
                          match getDecryptedApiKey user with
                          | None => (Json 400 (message "Invalid Groq API key"), w)
                          | Some apiKey =>
                              if String.eqb apiKey "" then
                                (Json 400 (message "Invalid Groq API key"), w)
                              else if negb (JS.startsWith apiKey "gsk_") then
                                (Json 400 (message "Invalid Groq API key format"), w)
                              else
                                match callGroqAPI remote apiKey html_ prompt_ w with
                                | (Return improvedHtml, w') =>
                                    (Json 200
                                       (JS.JObj
                                          [ ("html", JS.JStr improvedHtml);
                                            ("presentationTitle",
                                             JS.JStr "Improved Presentation");
                                            ("totalSlides", JS.JNum "0");
                                            ("designLibraryName",
                                             JS.JStr "Enhanced Design") ]),
                                     w')
                                | (Throw _, w') =>
                                    (Json 500 (message "Internal Server Error"), w')
                                end
                          end
                    end
              | _ =>
                  (Json 400
                     (message "Improvement prompt must be at least 10 characters long"), w)
              end
        | _ => (Json 400 (message "Invalid HTML content"), w)
        end
  end.

End Route.
End ImproveHtml.

(** *** The proposals route ([src/pages/settings.tsx], lines 920-996) *)

Module ProposalsApi.
Import Store Http.

(** What [getServerSession] resolved to: nothing, a session without a
    user, or a user with the [id] the session carries. *)
Inductive session : Type :=
| NoSession
| NoUser
| User (id : option string).

(** [req.query.shareableLink] : absent, one value, or several. *)
Inductive query : Type :=
| Absent
| One (value : string)
| Many (values : list string).

Record Request : Type := mkRequest {
  method : string;
  who : session;
  body_name : JS.value;
  body_html : JS.value;
  query_shareableLink : query
}.

Section Route.
Context {H : Host}.

(** What [res.json] writes for a document. *)
Variable document : ProposalDoc -> JS.json.

(** [Proposal.create] : the schema casts the fields, trims the name and
    requires name, page, link and owner; the link is under a unique index,
    so a second document with a link already stored is refused.  [views]
    and [viewDetails] take their defaults. *)
Definition create (name html_ : JS.json) (link : string) (userId : option string)
  (w : World) : outcome (ProposalDoc * World) :=
  do! n <- castString name in
  do! h <- Text.castStringRaw html_ in
  match userId with
  | None => Throw "ValidationError: user"
  | Some id =>
      match castObjectId (JS.JStr id) with
      | None => Throw "ValidationError: user"
      | Some uid =>
          if String.eqb n "" || String.eqb h "" || String.eqb link "" then
            Throw "ValidationError: required"
          else if existsb (fun p => String.eqb (shareableLink p) link) (proposals w) then
            Throw "E11000 duplicate key error"
          else
            let doc := mkProposal n h link uid 0 [] in
            Return (doc, set_proposals (fun ps => ps ++ [doc]) w)
      end
  end.

(** The handler; [random] is what [randomBytes (8)] returns. *)
Definition handler (random : Buffer.buffer) (req : Request) (w : World)
  : response * World :=
  if String.eqb (method req) "POST" then
    match who req with
    | NoSession => (Json 401 (message "Unauthorized"), w)
    | _ =>
        match JS.truthy_of (body_name req), JS.truthy_of (body_html req) with
        | Some name, Some html_ =>
            let shareableLink_ := Buffer.to_hex random in
            match who req with
            | User id =>
                match create name html_ shareableLink_ id w with
                | Return (proposal, w') => (Json 201 (document proposal), w')
                | Throw _ => (Json 500 (message "Internal Server Error"), w)
                end
            | _ => (Json 401 (message "Unauthorized"), w)
            end
        | _, _ => (Json 400 (message "Missing name or html"), w)
        end
    end
  else if String.eqb (method req) "GET" then
    match query_shareableLink req with
    | One link =>
        match ProposalPage.findOne link 0 (proposals w) with
        | None => (Json 404 (message "Proposal not found"), w)
        | Some (_, proposal) => (Json 200 (document proposal), w)
        end
    | _ => (Json 200 (JS.JArr (List.map document (proposals w))), w)
    end
  else
    (End_ 405 ["POST"; "GET"] ("Method " +:+ method req +:+ " Not Allowed"), w).

End Route.
End ProposalsApi.

(** *** The system-prompts route ([src/unnamed/part_003]) : [PUT] and
    [DELETE] *)

Module SystemPrompts.
Import Store Http.

Record PutRequest : Type := mkPut {
  put_session : option string;
  body_id : JS.value;
  body_name : JS.value;
  body_description : JS.value;
  body_prompt : JS.value;
  body_category : JS.value;
  body_isActive : JS.value
}.

Record DeleteRequest : Type := mkDelete {
  delete_session : option string;
  query_id : JS.value
}.

(** [updateData], after the cast of the update: a field is present when
    the request carries a truthy value for it ([isActive] : a boolean). *)
Record Update : Type := mkUpdate {
  set_name : option string;
  set_description : option string;
  set_prompt : option string;
  set_category : option string;
  set_isActive : option bool
}.

(** [if (v) updateData.k = v] and the cast of that field. *)
Definition cast_field (cast : JS.json -> outcome string) (v : JS.value)
  : outcome (option string) :=
  match JS.truthy_of v with
  | Some j => do! s <- cast j in Return (Some s)
  | None => Return None
  end.

(** [if (typeof isActive === 'boolean') updateData.isActive = isActive] *)
Definition flag_field (v : JS.value) : option bool :=
  match v with
  | Some (JS.JBool b) => Some b
  | _ => None
  end.

(** The schema trims the name, the description and the prompt; the
    category has no [trim], and update validators are off, so it is not
    checked against the enumeration. *)
Definition cast_update (req : PutRequest) : outcome Update :=
  do! name <- cast_field castString (body_name req) in
  do! description <- cast_field castString (body_description req) in
  do! prompt_ <- cast_field castString (body_prompt req) in
  do! category_ <- cast_field Text.castStringRaw (body_category req) in
  Return (mkUpdate name description prompt_ category_ (flag_field (body_isActive req))).

Definition apply_update (u : Update) (sp : SystemPromptDoc) : SystemPromptDoc :=
  mkSystemPrompt
    (default (promptName sp) (set_name u))
    (default (promptDescription sp) (set_description u))
    (default (prompt sp) (set_prompt u))
    (default (isActive sp) (set_isActive u))
    (default (category sp) (set_category u))
    (version sp) (promptCreatedBy sp).

(** Another document holds the name: the unique index refuses the
    write. *)
Definition name_taken (key name : string) (prompts : gmap string SystemPromptDoc) : bool :=
  bool_decide
    (map_Exists (fun k sp => k <> key /\ promptName sp = name) prompts).

Section Route.
Context {H : Host}.

(** What [res.json] writes for a document. *)
Variable document : SystemPromptDoc -> JS.json.

(** [SystemPrompt.findByIdAndUpdate (id, updateData, { new: true })] :
    the id and the update are cast before the query is sent; [None] is the
    [null] of a query that matched nothing. *)
Definition findByIdAndUpdate (req : PutRequest) (id : JS.json) (w : World)
  : outcome (option SystemPromptDoc * World) :=
  match castObjectId id with
  | None => Throw "CastError: Cast to ObjectId failed"
  | Some key =>
      do! u <- cast_update req in
      match systemPrompts w !! key with
      | None => Return (None, w)
      | Some sp =>
          let updated := apply_update u sp in
          if match set_name u with
             | Some name => name_taken key name (systemPrompts w)
             | None => false
             end
          then Throw "E11000 duplicate key error"
          else
            Return
              (Some updated,
               mkWorld (users w) (<[key := updated]> (systemPrompts w))
                 (designLibraries w) (proposals w) (outbound w))
      end
  end.

(** The [PUT] branch of the handler. *)
Definition handler_put (req : PutRequest) (w : World) : response * World :=
  match session_user (put_session req) with
  | None => (Json 401 (message "Unauthorized"), w)
  | Some _ =>
      match JS.truthy_of (body_id req) with
      | None => (Json 400 (message "Prompt ID is required"), w)
      | Some id =>
          match findByIdAndUpdate req id w with
          | Throw _ => (Json 500 (message "Internal Server Error"), w)
          | Return (None, _) => (Json 404 (message "Prompt not found"), w)
          | Return (Some updatedPrompt, w') => (Json 200 (document updatedPrompt), w')
          end
      end
  end.

(** The [DELETE] branch of the handler. *)
Definition handler_delete (req : DeleteRequest) (w : World) : response * World :=
  match session_user (delete_session req) with
  | None => (Json 401 (message "Unauthorized"), w)
  | Some _ =>
      match JS.truthy_of (query_id req) with
      | None => (Json 400 (message "Prompt ID is required"), w)
      | Some id =>
          match castObjectId id with
          | None => (Json 500 (message "Internal Server Error"), w)
          | Some key =>
              match systemPrompts w !! key with
              | None => (Json 404 (message "Prompt not found"), w)
              | Some _ =>
                  (Json 200 (message "Prompt deleted successfully"),
                   mkWorld (users w) (delete key (systemPrompts w))
                     (designLibraries w) (proposals w) (outbound w))
              end
          end
      end
  end.

End Route.
End SystemPrompts.

(** *** The design-library route ([src/pages/api/design-library.ts],
    lines 419-467) : [PUT] and [DELETE] *)

Module DesignLibraryAdmin.
Import Store Http.

Record PutRequest : Type := mkPut {
  put_session : option string;
  body_id : JS.value;
  body_name : JS.value;
  body_description : JS.value
}.

Record DeleteRequest : Type := mkDelete {
  delete_session : option string;
  query_id : JS.value
}.

(** The first document under [key] replaced by its image under [f]. *)
Fixpoint update_first (key : string) (f : DesignLibraryDoc -> DesignLibraryDoc)
  (ls : list DesignLibraryDoc) : list DesignLibraryDoc :=
  match ls with
  | [] => []
  | d :: ls' =>
      if String.eqb (libraryId d) key then f d :: ls' else d :: update_first key f ls'
  end.

(** The first document under [key] removed. *)
Fixpoint remove_first (key : string) (ls : list DesignLibraryDoc) : list DesignLibraryDoc :=
  match ls with
  | [] => []
  | d :: ls' => if String.eqb (libraryId d) key then ls' else d :: remove_first key ls'
  end.

Section Route.
Context {H : Host}.

(** What [res.json] writes for a document. *)
Variable document : DesignLibraryDoc -> JS.json.

(** The [PUT] branch: only the name and the description can change. *)
Definition handler_put (req : PutRequest) (w : World) : response * World :=
  match session_user (put_session req) with
  | None => (Json 401 (message "Unauthorized"), w)
  | Some _ =>
      match JS.truthy_of (body_id req) with
      | None => (Json 400 (message "Design library ID is required"), w)
      | Some id =>
          match castObjectId id with
          | None => (Json 500 (message "Internal Server Error"), w)
          | Some key =>
              match SystemPrompts.cast_field castString (body_name req),
                    SystemPrompts.cast_field castString (body_description req) with
              | Return name, Return description =>
                  match GenerateHtml.findById key w with
                  | None => (Json 404 (message "Design library not found"), w)
                  | Some d =>
                      let updated :=
                        mkDesignLibrary (libraryId d)
                          (default (libraryName d) name)
                          (default (libraryDescription d) description)
                          (cssVariables d) (analysisResult d) (systemPromptId d)
                          (createdBy d) in
                      (Json 200 (document updated),
                       set_designLibraries (update_first key (fun _ => updated)) w)
                  end
              | _, _ => (Json 500 (message "Internal Server Error"), w)
              end
          end
      end
  end.

(** The [DELETE] branch. *)
Definition handler_delete (req : DeleteRequest) (w : World) : response * World :=
  match session_user (delete_session req) with
  | None => (Json 401 (message "Unauthorized"), w)
  | Some _ =>
      match JS.truthy_of (query_id req) with
      | None => (Json 400 (message "Design library ID is required"), w)
      | Some id =>
          match castObjectId id with
          | None => (Json 500 (message "Internal Server Error"), w)
          | Some key =>
              match GenerateHtml.findById key w with
              | None => (Json 404 (message "Design library not found"), w)
              | Some _ =>
                  (Json 200 (message "Design library deleted successfully"),
                   set_designLibraries (remove_first key) w)
              end
          end
      end
  end.

End Route.
End DesignLibraryAdmin.

(** *** Vocabulary of the further statements *)

Module Routes.
Import Store Http.

(** The request passes every check of the text-to-deck handler: it is a
    [POST] of a signed-in account with a text and a listed model, and the
    stored credential of the account decrypts to [apiKey]. *)
Definition deck_ready {C : Utils.NodeCrypto} (req : TextToJson.Request) (w : World)
  (text model apiKey : string) : Prop :=
  TextToJson.method req = "POST"
  /\ TextToJson.body_text req = Some (JS.JStr text) /\ text <> ""
  /\ TextToJson.body_model req = Some (JS.JStr model)
  /\ In model TextToJson.validModels
  /\ exists userId user stored,
      session_user (TextToJson.session req) = Some userId
      /\ users w !! userId = Some user
      /\ groqApiKey user = Some stored /\ stored <> ""
      /\ getDecryptedApiKey user = Some apiKey /\ apiKey <> "".

(** The counter of a proposal agrees with its rows. *)
Definition counted (p : ProposalDoc) : Prop :=
  views p = N.of_nat (length (viewDetails p)).

(** The part of a design library that the model wrote is the same in
    [d] and [d']. *)
Definition same_tokens (d d' : DesignLibraryDoc) : Prop :=
  libraryId d' = libraryId d
  /\ cssVariables d' = cssVariables d
  /\ analysisResult d' = analysisResult d
  /\ systemPromptId d' = systemPromptId d
  /\ createdBy d' = createdBy d.

End Routes.

(** *** Fixtures of the further statements *)

Module Cases.
Import Store.

(** A remote service that refuses every credential, and one that is over
    its quota. *)
Definition refusing : FetchCall -> reply :=
  fun _ => Response false 401 "Unauthorized" "" (Content None).

Definition limited : FetchCall -> reply :=
  fun _ => Response false 429 "Too Many Requests" "" (Content None).

(** A template that was switched off, beside the active one. *)
Definition retired : SystemPromptDoc :=
  mkSystemPrompt "retired" "An older summary" "Shorten: {text}" false "presentation" 1 "u1".

Definition world : World :=
  mkWorld {[ "u1" := Sample.account "gsk_live" ]}
    {[ "p1" := Sample.summary; "p2" := retired ]} [] [] [].

(** A request for a deck with a stored template. *)
Definition deck_request (template : string) : TextToJson.Request :=
  TextToJson.mkRequest "POST" (Some "u1") (Some (JS.JStr "hello"))
    (Some (JS.JStr "openai/gpt-oss-20b")) (Some (JS.JStr template)).

(** An account that holds its credential as a plain text. *)
Definition plain_account : UserDoc :=
  mkUser "ada@example.org" "Ada" "$2a$12$hash" (Some "gsk_plain").

(** A design library and the world that holds it. *)
Definition brand : DesignLibraryDoc :=
  mkDesignLibrary "d1" "Brand" "Brand tokens" ":root{--c:#fff;}" "grid" "p1" "u1".

Definition html_request : GenerateHtml.Request :=
  GenerateHtml.mkRequest "POST" (Some "u1") (Some Sample.q1_update) (Some (JS.JStr "d1")).

(** What [res.json] writes, as far as the statements look at it. *)
Definition proposal_json (p : ProposalDoc) : JS.json :=
  JS.JObj
    [ ("name", JS.JStr (proposalName p)); ("shareableLink", JS.JStr (shareableLink p));
      ("views", JS.JNum (pretty (views p))) ].

Definition template_json (sp : SystemPromptDoc) : JS.json :=
  JS.JObj [("name", JS.JStr (promptName sp)); ("isActive", JS.JBool (isActive sp))].

(** The bytes of [randomBytes (8)], a [POST] of a proposal and a [GET]
    without a session. *)
Definition random : Buffer.buffer := repeat Byte.x5f 8.


Definition get_request : ProposalsApi.Request :=
  ProposalsApi.mkRequest "GET" ProposalsApi.NoSession None None
    (ProposalsApi.One "5f3a9c2b1d4e6f70").


(** Switching the template [p1] off, and deleting it. *)
Definition switch_off : SystemPrompts.PutRequest :=
  SystemPrompts.mkPut (Some "u1") (Some (JS.JStr "p1")) None None None None
    (Some (JS.JBool false)).

Definition remove_template : SystemPrompts.DeleteRequest :=
  SystemPrompts.mkDelete (Some "u1") (Some (JS.JStr "p1")).

End Cases.

(** * Properties *)

(** ** The envelope of an encrypted credential *)

Section Envelope.
Import Utils Buffer.

Lemma from_hex_byte (x : Byte.byte) (rest : string) :
  from_hex (hex_of_byte x +:+ rest) = x :: from_hex rest.
Proof. destruct x; reflexivity. Qed.

Lemma from_hex_to_hex (b : buffer) : from_hex (to_hex b) = b.
Proof.
  induction b as [|x b IH]; [reflexivity|].
  change (to_hex (x :: b)) with (hex_of_byte x +:+ to_hex b).
  rewrite from_hex_byte. by rewrite IH.
Qed.

Lemma no_colon_app (s t : string) : no_colon (s +:+ t) = no_colon s && no_colon t.
Proof.
  induction s as [|c s IH]; simpl; [done|].
  rewrite IH. by rewrite andb_assoc.
Qed.

Lemma no_colon_hex (b : buffer) : no_colon (to_hex b) = true.
Proof.
  induction b as [|x b IH]; [reflexivity|].
  change (to_hex (x :: b)) with (hex_of_byte x +:+ to_hex b).
  rewrite no_colon_app, IH, andb_true_r. destruct x; reflexivity.
Qed.

Lemma split_colon_nonempty (s : string) : split_colon s <> [].
Proof.
  destruct s as [|c s]; simpl; [done|].
  destruct (Ascii.eqb c ":"); [done|]. destruct (split_colon s); done.
Qed.

Lemma split_colon_head (h rest : string) :
  no_colon h = true -> split_colon (h +:+ ":" +:+ rest) = h :: split_colon rest.
Proof.
  induction h as [|c h IH]; simpl; intros Hh.
  - reflexivity.
  - apply andb_true_iff in Hh as [Hc Hh]. apply negb_true_iff in Hc.
    rewrite Hc. rewrite (IH Hh). reflexivity.
Qed.

Lemma join_cons_char (c : ascii) (p : string) (ps : list string) :
  JS.join ":" (String c p :: ps) = String c (JS.join ":" (p :: ps)).
Proof. destruct ps; reflexivity. Qed.

Lemma join_split_colon (s : string) : JS.join ":" (split_colon s) = s.
Proof.
  induction s as [|c s IH]; [reflexivity|].
  pose proof (split_colon_nonempty s) as Hne.
  cbn [split_colon]. destruct (Ascii.eqb_spec c ":") as [->|Hc];
    destruct (split_colon s) as [|p ps] eqn:E; try done.
  - simpl. by rewrite <- IH.
  - rewrite join_cons_char. by rewrite IH.
Qed.

(** Splitting an envelope at the colons, taking the first part and
    joining the rest gives back the two halves. *)
Lemma shift_join_envelope (ivHex cipherHex : string) :
  no_colon ivHex = true ->
  shift_join (split_colon (ivHex +:+ ":" +:+ cipherHex)) = (ivHex, cipherHex).
Proof.
  intros Hiv. rewrite (split_colon_head _ _ Hiv). unfold shift_join.
  by rewrite join_split_colon.
Qed.

Context {C : NodeCrypto} {L : NodeCryptoLaws C}.

(** C10.  The credential helpers form a round trip.  For every plaintext
    [s] and every 16-byte IV drawn by [encrypt], the result is the envelope
    [ivHex:cipherHex]; [decrypt] splits it back into its two halves, its
    first strategy alone recovers [s], and so [decrypt] returns [s] without
    reaching the legacy scheme. *)
Theorem decrypt_encrypt_roundtrip (s : string) (iv : buffer) :
  length iv = 16%nat ->
  exists cipherHex,
    encrypt iv s = Return (to_hex iv +:+ ":" +:+ cipherHex)
    /\ shift_join (split_colon (to_hex iv +:+ ":" +:+ cipherHex)) = (to_hex iv, cipherHex)
    /\ decrypt_primary (from_hex (to_hex iv)) cipherHex = Some s
    /\ decrypt (to_hex iv +:+ ":" +:+ cipherHex) = Return s.
Proof.
  intros Hiv.
  exists (to_hex (cipheriv derived_key iv (from_utf8 s))).
  assert (Hprimary :
    decrypt_primary (from_hex (to_hex iv))
      (to_hex (cipheriv derived_key iv (from_utf8 s))) = Some s).
  { unfold decrypt_primary. rewrite !from_hex_to_hex, Hiv. simpl.
    rewrite decipheriv_cipheriv by exact Hiv.
    unfold to_utf8, from_utf8. by rewrite string_of_list_byte_of_string. }
  repeat split.
  - unfold encrypt. by rewrite Hiv.
  - apply shift_join_envelope, no_colon_hex.
  - exact Hprimary.
  - unfold decrypt. rewrite shift_join_envelope by apply no_colon_hex.
    by rewrite Hprimary.
Qed.

End Envelope.

#[local] Instance sample_crypto_laws : Utils.NodeCryptoLaws Sample.crypto.
Proof. constructor. intros key iv data _. simpl. by rewrite rev_involutive. Qed.

Lemma decrypt_encrypt_roundtrip_witness :
  length Sample.iv = 16%nat
  /\ exists cipherHex,
      @Utils.encrypt Sample.crypto Sample.iv "gsk_test"
      = Return (Buffer.to_hex Sample.iv +:+ ":" +:+ cipherHex)
      /\ Utils.shift_join (Utils.split_colon (Buffer.to_hex Sample.iv +:+ ":" +:+ cipherHex))
         = (Buffer.to_hex Sample.iv, cipherHex)
      /\ @Utils.decrypt_primary Sample.crypto
           (Buffer.from_hex (Buffer.to_hex Sample.iv)) cipherHex = Some "gsk_test"
      /\ @Utils.decrypt Sample.crypto (Buffer.to_hex Sample.iv +:+ ":" +:+ cipherHex)
         = Return "gsk_test".
Proof.
  split; [reflexivity|].
  apply (@decrypt_encrypt_roundtrip Sample.crypto sample_crypto_laws "gsk_test" Sample.iv).
  reflexivity.
Defined.

(** ** The deck normalizer *)

Section DeckNormalizer.
Import JS Deck TextToJson.

Lemma lookup_set_field_eq (k : string) (v : json) (fs : list (string * json)) :
  lookup_field k (set_field k v fs) = Some v.
Proof.
  induction fs as [|[k' v'] fs IH]; simpl.
  - by rewrite String.eqb_refl.
  - destruct (String.eqb k k') eqn:E; simpl; rewrite ?String.eqb_refl, ?E; done.
Qed.

Lemma lookup_set_field_ne (k k' : string) (v : json) (fs : list (string * json)) :
  k <> k' -> lookup_field k (set_field k' v fs) = lookup_field k fs.
Proof.
  intros Hne. induction fs as [|[k2 v2] fs IH]; simpl.
  - apply String.eqb_neq in Hne. by rewrite Hne.
  - destruct (String.eqb k' k2) eqn:E; simpl.
    + apply String.eqb_eq in E as <-. apply String.eqb_neq in Hne. by rewrite Hne.
    + destruct (String.eqb k k2); [done | exact IH].
Qed.

Lemma prop_nonnull (v : json) (k : string) : v <> JNull -> prop v k = Return (field k v).
Proof. intros Hs. destruct v; try reflexivity. by destruct Hs. Qed.

Lemma prop_returns (v : json) (k : string) (r : value) : prop v k = Return r -> v <> JNull.
Proof. by destruct v. Qed.

Lemma or_else_truthy (a : value) (b : json) : truthy b = true -> truthy (or_else a b) = true.
Proof.
  intros Hb. destruct a as [j|]; simpl; [|done]. by destruct (truthy j) eqn:E.
Qed.

Lemma or_else_present (a : value) (b : json) :
  truthy_value a = true -> a = Some (or_else a b).
Proof. destruct a as [j|]; simpl; [|done]. by intros ->. Qed.

Lemma or_else_absent (a : value) (b : json) : truthy_value a = false -> or_else a b = b.
Proof. destruct a as [j|]; simpl; [|done]. by intros ->. Qed.

Lemma enhance_slide_nonnull (token : string) (slide : json) :
  slide <> JNull ->
  enhance_slide token slide = Return (enhanced token slide, lacks_id slide).
Proof.
  intros Hs. unfold enhance_slide. rewrite !prop_nonnull by done. reflexivity.
Qed.

Lemma drawn_before_S (s : json) (items : list json) (i : nat) :
  drawn_before (s :: items) (S i)
  = ((if lacks_id s then 1 else 0) + drawn_before items i)%nat.
Proof.
  unfold drawn_before. simpl. rewrite filter_cons.
  destruct (decide (lacks_id s = true)) as [->|Hn]; simpl; [done|].
  by destruct (lacks_id s).
Qed.

(** Tokens are drawn in the order of the entries: a later entry never
    gets the token of an earlier entry that needed one. *)
Lemma drawn_before_lt (items : list json) : forall (i i' : nat) (s : json),
  (i < i')%nat -> items !! i = Some s -> lacks_id s = true ->
  is_Some (items !! i') ->
  (drawn_before items i < drawn_before items i')%nat.
Proof.
  induction items as [|x items IH]; intros i i' s Hlt Hi Hlack Hi'.
  - by rewrite lookup_nil in Hi.
  - destruct i' as [|i']; [lia|]. rewrite drawn_before_S.
    destruct i as [|i].
    + simpl in Hi. injection Hi as ->. rewrite Hlack. unfold drawn_before at 1. simpl. lia.
    + rewrite drawn_before_S. simpl in Hi, Hi'.
      pose proof (IH i i' s ltac:(lia) Hi Hlack Hi'). lia.
Qed.

Lemma enhance_slides_spec (uuid : nat -> string) (items : list json) : forall n : nat,
  Forall (fun s => s <> JNull) items ->
  exists out,
    enhance_slides uuid n items = Return out
    /\ length out = length items
    /\ forall i slide, items !! i = Some slide ->
         out !! i = Some (enhanced (uuid (n + drawn_before items i)%nat) slide).
Proof.
  induction items as [|s items IH]; intros n Hall.
  - exists []. split; [reflexivity|]. split; [reflexivity|].
    intros i slide Hi. by rewrite lookup_nil in Hi.
  - inversion Hall as [|? ? Hs Hrest]; subst.
    destruct (IH (if lacks_id s then S n else n) Hrest) as (out & Hout & Hlen & Hidx).
    exists (enhanced (uuid n) s :: out). split; [|split].
    + cbn [enhance_slides]. rewrite enhance_slide_nonnull by done. simpl.
      rewrite Hout. reflexivity.
    + simpl. by rewrite Hlen.
    + intros [|i] slide Hi; simpl in Hi.
      * injection Hi as <-. unfold drawn_before. simpl. rewrite Nat.add_0_r. reflexivity.
      * simpl. rewrite (Hidx i slide Hi), drawn_before_S.
        destruct (lacks_id s); do 3 f_equal; lia.
Qed.

(** What the validator returns on an array of entries none of which is
    [null]. *)
Lemma validate_and_enhance_spec (uuid : nat -> string) (j : json) (items : list json) :
  prop j "slides" = Return (Some (JArr items)) ->
  Forall (fun s => s <> JNull) items ->
  exists out,
    validate_and_enhance uuid j
    = Return
        (JObj
           [ ("presentationTitle",
              or_else (field "presentationTitle" j) (JStr "Generated Presentation"));
             ("totalSlides", JNum (pretty (length items)));
             ("slides", JArr out) ])
    /\ length out = length items
    /\ forall i slide, items !! i = Some slide ->
         out !! i = Some (enhanced (uuid (drawn_before items i)) slide).
Proof.
  intros Hslides Hall.
  destruct (enhance_slides_spec uuid items 0 Hall) as (out & Hout & Hlen & Hidx).
  exists out. split; [|split; [done|]].
  - unfold validate_and_enhance. rewrite Hslides. simpl. rewrite Hout. simpl.
    rewrite (prop_nonnull j) by (eapply prop_returns; eauto). simpl.
    by rewrite Hlen.
  - intros i slide Hi. by rewrite (Hidx i slide Hi).
Qed.

(** Without an array under [slides] the validator throws. *)
Lemma validate_and_enhance_rejects (uuid : nat -> string) (j : json) :
  (forall items, prop j "slides" <> Return (Some (JArr items))) ->
  exists e, validate_and_enhance uuid j = Throw e.
Proof.
  intros Hno. unfold validate_and_enhance.
  destruct (prop j "slides") as [[v|]|e] eqn:E; simpl; eauto.
  destruct v as [|b|r|s|items|fs]; simpl;
    try (by destruct (Hno items)); try (destruct b); try (destruct (negb _)); eauto.
Qed.

Context {H : Store.Host}.

(** C1, as amended.  For every completion that parses as JSON and whose
    [slides] field is an array of N entries none of which is [null], the
    normalizer returns a deck with exactly N slides in the order of the
    entries; every slide has a non-empty identifier, the original one when
    the entry has one and otherwise a fresh token of [randomUUID]; a
    missing type is defaulted to ['content']; and [totalSlides] is N
    whatever [totalSlides] the completion carries. *)
Theorem deck_slides_normalized (uuid : nat -> string) (content : string)
  (j : json) (items : list json) :
  Store.JSON_parse content = Some j ->
  prop j "slides" = Return (Some (JArr items)) ->
  Forall (fun s => s <> JNull) items ->
  (forall n, uuid n <> "") ->
  exists result,
    parse_completion uuid content = Return result /\ normalizes uuid items result.
Proof.
  intros Hparse Hslides Hall Huuid.
  destruct (validate_and_enhance_spec uuid j items Hslides Hall) as (out & Hv & Hlen & Hidx).
  eexists. split.
  - unfold parse_completion. rewrite Hparse, Hv. reflexivity.
  - exists (or_else (field "presentationTitle" j) (JStr "Generated Presentation")), out.
    split; [reflexivity|]. split; [exact Hlen|]. split.
    + intros i slide Hi. eexists _, _. split; [exact (Hidx i slide Hi)|].
      split; [rewrite lookup_set_field_ne by done; apply lookup_set_field_eq|].
      split.
      { apply or_else_truthy. simpl. specialize (Huuid (drawn_before items i)).
        apply negb_true_iff, String.eqb_neq. exact Huuid. }
      split; [intros Hid; by apply or_else_present|].
      split.
      { unfold lacks_id. intros Hl. apply negb_true_iff in Hl. by apply or_else_absent. }
      split; [apply lookup_set_field_eq|].
      intros k Hk1 Hk2. by rewrite !lookup_set_field_ne.
    + intros i i' s Hlt Hi Hl Hi'. by eapply drawn_before_lt.
Qed.

(** C4, as amended.  For the deck shape the validator requires a
    [slides] field that is an array and fails when it is absent or of
    another kind; a title is not required: a completion without a truthy
    [presentationTitle] is normalized under the title
    ['Generated Presentation']. *)
Theorem deck_validation_gate (uuid : nat -> string) (content : string) (j : json) :
  Store.JSON_parse content = Some j ->
  ((forall items, prop j "slides" <> Return (Some (JArr items))) ->
   parse_completion uuid content = Throw "Invalid JSON response from AI model")
  /\ (forall items,
        prop j "slides" = Return (Some (JArr items)) ->
        Forall (fun s => s <> JNull) items ->
        truthy_value (field "presentationTitle" j) = false ->
        exists out,
          parse_completion uuid content
          = Return
              (JObj
                 [ ("presentationTitle", JStr "Generated Presentation");
                   ("totalSlides", JNum (pretty (length items)));
                   ("slides", JArr out) ])).
Proof.
  intros Hparse. split.
  - intros Hno. destruct (validate_and_enhance_rejects uuid j Hno) as [e He].
    unfold parse_completion. by rewrite Hparse, He.
  - intros items Hslides Hall Htitle.
    destruct (validate_and_enhance_spec uuid j items Hslides Hall) as (out & Hv & _).
    exists out. unfold parse_completion. rewrite Hparse, Hv.
    by rewrite (or_else_absent _ _ Htitle).
Qed.

End DeckNormalizer.

Lemma sample_uuid_nonempty (n : nat) : Sample.uuid n <> "".
Proof. unfold Sample.uuid. simpl. discriminate. Qed.

Lemma deck_slides_normalized_witness :
  @Store.JSON_parse (Sample.host Sample.completions) "q1" = Some Sample.q1_update
  /\ exists result,
      @TextToJson.parse_completion (Sample.host Sample.completions) Sample.uuid "q1"
      = Return result
      /\ Deck.normalizes Sample.uuid
           [ JS.JObj
               [ ("title", JS.JStr "Revenue"); ("content", JS.JStr "Grew 20%");
                 ("type", JS.JStr "content") ];
             JS.JObj
               [ ("id", JS.JStr "hiring"); ("title", JS.JStr "Hiring");
                 ("content", JS.JStr "5 engineers") ] ]
           result.
Proof.
  split; [reflexivity|].
  apply (@deck_slides_normalized (Sample.host Sample.completions) Sample.uuid "q1"
           Sample.q1_update).
  - reflexivity.
  - reflexivity.
  - repeat constructor; discriminate.
  - exact sample_uuid_nonempty.
Defined.

(** The first end-to-end scenario, with a [totalSlides] of 7 in the
    completion: two slides are counted, the first gets a token, the second
    keeps its [id] and gets the default [type]. *)
Example q1_update_scenario :
  @TextToJson.parse_completion (Sample.host Sample.completions) Sample.uuid "q1"
  = Return
      (JS.JObj
         [ ("presentationTitle", JS.JStr "Q1 Update");
           ("totalSlides", JS.JNum "2");
           ("slides",
            JS.JArr
              [ JS.JObj
                  [ ("title", JS.JStr "Revenue"); ("content", JS.JStr "Grew 20%");
                    ("type", JS.JStr "content"); ("id", JS.JStr "uuid-0") ];
                JS.JObj
                  [ ("id", JS.JStr "hiring"); ("title", JS.JStr "Hiring");
                    ("content", JS.JStr "5 engineers"); ("type", JS.JStr "content") ] ]) ]).
Proof. reflexivity. Qed.

(** The claim C1 as first stated fails on an entry that is [null] : the
    callback reads [slide.id], which throws, and the completion is
    rejected although its [slides] field is an array of one entry. *)
Lemma deck_null_entry_rejected :
  JS.prop Sample.null_entry "slides" = Return (Some (JS.JArr [JS.JNull]))
  /\ @Store.JSON_parse (Sample.host Sample.completions) "null-entry"
     = Some Sample.null_entry
  /\ @TextToJson.parse_completion (Sample.host Sample.completions) Sample.uuid
       "null-entry"
     = Throw "Invalid JSON response from AI model".
Proof. repeat split. Qed.

Lemma deck_validation_gate_witness :
  @Store.JSON_parse (Sample.host Sample.completions) "untitled" = Some Sample.untitled
  /\ ((forall items, JS.prop Sample.untitled "slides" <> Return (Some (JS.JArr items))) ->
      @TextToJson.parse_completion (Sample.host Sample.completions) Sample.uuid "untitled"
      = Throw "Invalid JSON response from AI model")
  /\ (forall items,
        JS.prop Sample.untitled "slides" = Return (Some (JS.JArr items)) ->
        Forall (fun s => s <> JS.JNull) items ->
        JS.truthy_value (Deck.field "presentationTitle" Sample.untitled) = false ->
        exists out,
          @TextToJson.parse_completion (Sample.host Sample.completions) Sample.uuid
            "untitled"
          = Return
              (JS.JObj
                 [ ("presentationTitle", JS.JStr "Generated Presentation");
                   ("totalSlides", JS.JNum (pretty (length items)));
                   ("slides", JS.JArr out) ])).
Proof.
  split; [reflexivity|].
  apply (@deck_validation_gate (Sample.host Sample.completions) Sample.uuid "untitled"
           Sample.untitled).
  reflexivity.
Defined.

(** The claim C4 as first stated fails on a completion without a title:
    it is normalized, under the default title, and not rejected. *)
Lemma deck_without_title_accepted :
  Deck.field "presentationTitle" Sample.untitled = None
  /\ @Store.JSON_parse (Sample.host Sample.completions) "untitled" = Some Sample.untitled
  /\ @TextToJson.parse_completion (Sample.host Sample.completions) Sample.uuid "untitled"
     = Return
         (JS.JObj
            [ ("presentationTitle", JS.JStr "Generated Presentation");
              ("totalSlides", JS.JNum "0");
              ("slides", JS.JArr []) ]).
Proof. repeat split. Qed.

(** ** Template resolution *)

Section TemplateResolution.
Import JS.

Lemma append_cons (c : ascii) (s t : string) : String c s +:+ t = String c (s +:+ t).
Proof. reflexivity. Qed.

Lemma prefix_drop (pat s : string) :
  String.prefix pat s = true -> s = pat +:+ drop (String.length pat) s.
Proof.
  revert s. induction pat as [|c pat IH]; intros s Hp; simpl; [done|].
  destruct s as [|c' s]; simpl in Hp; [done|].
  destruct (Ascii.ascii_dec c c') as [->|]; [|done].
  change (String c' s = String c' (pat +:+ drop (String.length pat) s)).
  f_equal. by apply IH.
Qed.

(** [split_first] cuts the text around an occurrence of the pattern. *)
Lemma split_first_sound (pat s before after : string) :
  split_first pat s = Some (before, after) -> s = before +:+ pat +:+ after.
Proof.
  revert before. induction s as [|c s IH]; intros before; cbn [split_first].
  - destruct pat; [intros [= <- <-]; reflexivity | done].
  - destruct (String.prefix pat (String c s)) eqn:E.
    + intros [= <- <-]. by apply prefix_drop in E.
    + destruct (split_first pat s) as [[b a]|] eqn:Es; [|done].
      intros [= <- <-]. rewrite append_cons. f_equal. by apply IH.
Qed.

(** Without a [$] the replacement text is inserted as it is. *)
Lemma get_substitution_literal (matched before after repl : string) :
  dollar_free repl = true -> get_substitution matched before after repl = repl.
Proof.
  induction repl as [|c repl IH]; [done|]. intros Hd. cbn [dollar_free] in Hd.
  apply andb_true_iff in Hd as [Hc Hd]. apply negb_true_iff in Hc.
  assert (Hne : c <> "$"%char) by (intros ->; done).
  cbn [get_substitution].
  destruct c as [[] [] [] [] [] [] [] []]; try (f_equal; by apply IH); done.
Qed.

(** When the caller's text has no [$], the resolved prompt is the
    template with the text in place of the first placeholder. *)
Lemma replace_literal (template text before after : string) :
  split_first "{text}" template = Some (before, after) ->
  dollar_free text = true ->
  template = before +:+ "{text}" +:+ after
  /\ replace template "{text}" text = before +:+ text +:+ after.
Proof.
  intros Hs Hd. split; [by apply split_first_sound|].
  unfold replace. rewrite Hs. by rewrite get_substitution_literal.
Qed.
End TemplateResolution.

(** C5.  The claim has the placeholder replaced by the caller's text as
    it is, so that the text can be read back from the resolved prompt.
    [String.prototype.replace] expands [$$], [$&], [$`] and [$'] in its
    second argument: with the stored template [Summarize: {text}], which
    has one placeholder, the text [Pay $$5 now] comes out as [Pay $5 now],
    and [see $& here] brings the placeholder back. *)
Theorem template_text_not_literal :
  JS.occurrences "{text}" (Store.prompt Sample.summary) = 1%nat
  /\ @TextToJson.resolve_prompt (Sample.host []) (Sample.world "gsk_live")
       "Pay $$5 now" (Some (JS.JStr "p1"))
     = Return "Summarize: Pay $5 now"
  /\ "Summarize: Pay $5 now" <> "Summarize: " +:+ "Pay $$5 now"
  /\ @TextToJson.resolve_prompt (Sample.host []) (Sample.world "gsk_live")
       "see $& here" (Some (JS.JStr "p1"))
     = Return "Summarize: see {text} here".
Proof. repeat split. discriminate. Qed.

(** The built-in template has one placeholder too, and goes through the
    same replacement. *)
Example default_prompt_placeholder :
  JS.occurrences "{text}" TextToJson.default_prompt = 1%nat
  /\ exists before after,
      JS.split_first "{text}" TextToJson.default_prompt = Some (before, after)
      /\ @TextToJson.resolve_prompt (Sample.host []) (Sample.world "gsk_live") "$$" None
         = Return (before +:+ "$" +:+ after).
Proof. split; [reflexivity|]. eexists _, _. split; reflexivity. Qed.

(** ** Design tokens *)

Section DesignTokens.
Import JS DesignLibrary.

(** X26.  When the content is text, the two shapes give the same pair. *)
Lemma shapes_agree_on_text (css note : string) :
  css <> "" -> note <> "" ->
  reshape (JObj [("css", JStr css); ("implementationNote", JStr note)])
  = Return (mkTokens (JStr css) (JStr note))
  /\ reshape (JObj [("cssVariables", JStr css); ("analysisResult", JStr note)])
     = Return (mkTokens (JStr css) (JStr note)).
Proof.
  intros Hc%String.eqb_neq Hn%String.eqb_neq.
  unfold reshape. simpl. rewrite Hc, Hn. simpl. split; reflexivity.
Qed.

(** In the first shape a note that is an object or an array is
    serialized. *)
Lemma new_shape_serializes (css : string) (note : json) (rest : list (string * json)) :
  css <> "" -> truthy note = true -> typeof_object note = true ->
  reshape (JObj (("css", JStr css) :: ("implementationNote", note) :: rest))
  = Return (mkTokens (JStr css) (JStr (stringify_pretty note))).
Proof.
  intros Hc%String.eqb_neq Hn Ho.
  unfold reshape, serialize_object. simpl. rewrite Hc, Hn, Ho. reflexivity.
Qed.

End DesignTokens.

(** The second end-to-end scenario: the note of the first shape is
    stored as its indented JSON text. *)
Example new_shape_scenario :
  Store.designLibraries
    (snd (@DesignLibrary.handler_post Sample.crypto (Sample.host Sample.token_completions)
            (Sample.remote "new") "d1"
            (Sample.design_request (Sample.image 200)) (Sample.world "gsk_live")))
  = [ Store.mkDesignLibrary "d1" "Brand" "Brand tokens" ":root{--c:#fff;}"
        ("{" +:+ JS.newline +:+ "  " +:+ JS.quote "approach" +:+ ": " +:+ JS.quote "grid"
         +:+ JS.newline +:+ "}")
        "p1" "u1" ].
Proof. vm_compute. reflexivity. Qed.

(** C2.  The claim has both shapes reshaped into one pair, a note that
    is not a string turned into its JSON text, and equal content giving
    equal pairs.  The branch for [css] and [implementationNote] serializes
    an object; the branch for [cssVariables] and [analysisResult] returns
    the object as it is.  So the same content gives two different pairs,
    and on the route the first is stored while the second fails the cast
    to the string the schema declares: a 500 and no record. *)
Theorem original_shape_not_serialized :
  DesignLibrary.reshape Sample.new_shape
  = Return
      (DesignLibrary.mkTokens (JS.JStr ":root{--c:#fff;}")
         (JS.JStr
            ("{" +:+ JS.newline +:+ "  " +:+ JS.quote "approach" +:+ ": "
             +:+ JS.quote "grid" +:+ JS.newline +:+ "}")))
  /\ DesignLibrary.reshape Sample.original_shape
     = Return
         (DesignLibrary.mkTokens (JS.JStr ":root{--c:#fff;}")
            (JS.JObj [("approach", JS.JStr "grid")]))
  /\ DesignLibrary.reshape Sample.new_shape <> DesignLibrary.reshape Sample.original_shape
  /\ Http.status_of
       (fst (@DesignLibrary.handler_post Sample.crypto (Sample.host Sample.token_completions)
               (Sample.remote "new") "d1"
               (Sample.design_request (Sample.image 200)) (Sample.world "gsk_live")))
     = 201%N
  /\ @DesignLibrary.handler_post Sample.crypto (Sample.host Sample.token_completions)
       (Sample.remote "original") "d1"
       (Sample.design_request (Sample.image 200)) (Sample.world "gsk_live")
     = (Http.Json 500 (Http.message "Internal Server Error"),
        Store.mkWorld (Store.users (Sample.world "gsk_live"))
          (Store.systemPrompts (Sample.world "gsk_live")) [] []
          [ DesignLibrary.vision_request "gsk_live" (Sample.image 200) "Summarize: {text}" ]).
Proof.
  split; [reflexivity|]. split; [reflexivity|]. split; [discriminate|].
  split; vm_compute; reflexivity.
Qed.

(** ** The gates of the routes *)

Section Gates.
Import Store Http.
Context {C : Utils.NodeCrypto} {H : Host}.

Lemma validModels_includes_In (model : string) :
  TextToJson.validModels_includes model = true -> In model TextToJson.validModels.
Proof.
  unfold TextToJson.validModels_includes. rewrite existsb_exists.
  intros (m & Hin & Heq). apply String.eqb_eq in Heq. by subst.
Qed.

(** C8.  The text-to-deck route accepts a model selector only from the
    list of the two models: for any other selector the route answers
    without a single outbound request and without touching the store, and
    the answer is not a success; when the request is an authenticated
    [POST] with a text, the answer is the 400 of the model check. *)
Theorem invalid_model_rejected (remote : FetchCall -> reply) (uuid : nat -> string)
  (req : TextToJson.Request) (w : World) :
  (forall m, TextToJson.body_model req = Some (JS.JStr m) ->
             ~ In m TextToJson.validModels) ->
  exists res,
    TextToJson.handler remote uuid req w = (res, w)
    /\ status_of res <> 200%N
    /\ (TextToJson.method req = "POST" ->
        session_user (TextToJson.session req) <> None ->
        (exists t, TextToJson.body_text req = Some (JS.JStr t) /\ t <> "") ->
        res = Json 400 (message "Invalid model selection")
        \/ res = Json 400 (message "Model selection is required")).
Proof.
  intros Hmodel. unfold TextToJson.handler.
  destruct (String.eqb_spec (TextToJson.method req) "POST") as [Hm|Hm]; simpl.
  2:{ eexists. split; [reflexivity|]. split; [done|]. intros; done. }
  destruct (session_user (TextToJson.session req)) as [userId|] eqn:Hs.
  2:{ eexists. split; [reflexivity|]. split; [done|]. intros; done. }
  destruct (TextToJson.body_text req) as [[| | |text| |]|] eqn:Ht;
    try (eexists; split; [reflexivity|]; split; [done|];
         intros _ _ (t & [=] & _); done).
  destruct (String.eqb_spec text "") as [->|Hne].
  { eexists. split; [reflexivity|]. split; [done|]. intros _ _ (t & [= <-] & Hn). done. }
  destruct (TextToJson.body_model req) as [[| | |model| |]|] eqn:Hb;
    try (eexists; split; [reflexivity|]; split; [done|]; intros; by right).
  destruct (String.eqb_spec model "") as [->|Hne'].
  { eexists. split; [reflexivity|]. split; [done|]. intros; by right. }
  destruct (TextToJson.validModels_includes model) eqn:Hv; simpl.
  { apply validModels_includes_In in Hv. by destruct (Hmodel model eq_refl). }
  eexists. split; [reflexivity|]. split; [done|]. intros; by left.
Qed.

(** The text-to-deck route sends the request with whatever credential
    the account holds: nothing looks at its prefix. *)
Lemma text_to_json_sends (remote : FetchCall -> reply) (uuid : nat -> string)
  (req : TextToJson.Request) (w : World)
  (userId text model stored apiKey resolved : string) (user : UserDoc) :
  TextToJson.method req = "POST" ->
  session_user (TextToJson.session req) = Some userId ->
  TextToJson.body_text req = Some (JS.JStr text) -> text <> "" ->
  TextToJson.body_model req = Some (JS.JStr model) ->
  In model TextToJson.validModels ->
  users w !! userId = Some user ->
  groqApiKey user = Some stored -> stored <> "" ->
  getDecryptedApiKey user = Some apiKey -> apiKey <> "" ->
  TextToJson.resolve_prompt w text (TextToJson.body_systemPromptId req) = Return resolved ->
  outbound (snd (TextToJson.handler remote uuid req w))
  = outbound w ++ [TextToJson.chat_request apiKey model resolved].
Proof.
  intros Hm Hs Ht Htn Hb Hin Hu Hk Hkn Hd Hdn Hr.
  unfold TextToJson.handler. rewrite Hm, Hs, Ht, Hb, Hu, Hk, Hd. simpl.
  apply String.eqb_neq in Htn, Hkn, Hdn. rewrite Htn.
  assert (model <> "") as Hmn%String.eqb_neq.
  { intros ->. simpl in Hin. intuition discriminate. }
  rewrite Hmn.
  assert (TextToJson.validModels_includes model = true) as ->.
  { unfold TextToJson.validModels_includes. apply existsb_exists.
    exists model. split; [done|]. apply String.eqb_refl. }
  simpl. destruct stored as [|c stored]; [done|]. destruct apiKey as [|c' apiKey]; [done|].
  unfold TextToJson.callGroqAPI. rewrite Hr. unfold fetch.
  repeat case_match; simplify_eq; reflexivity.
Qed.

(** X23.  The design-library route stops at a credential that does not start
    with [gsk_] : the world is as before, so nothing was sent. *)
Lemma design_library_checks_prefix (remote : FetchCall -> reply) (newId : string)
  (req : DesignLibrary.PostRequest) (w : World)
  (userId apiKey : string) (user : UserDoc) :
  session_user (DesignLibrary.session req) = Some userId ->
  users w !! userId = Some user ->
  getDecryptedApiKey user = Some apiKey ->
  JS.startsWith apiKey "gsk_" = false ->
  snd (DesignLibrary.handler_post remote newId req w) = w.
Proof.
  intros Hs Hu Hd Hp. unfold DesignLibrary.handler_post. rewrite Hs.
  repeat case_match; simplify_eq; try reflexivity.
  all: rewrite Hp in *; done.
Qed.


End Gates.

Lemma invalid_model_rejected_witness :
  (forall m, TextToJson.body_model (Sample.deck_request "gpt-made-up") = Some (JS.JStr m) ->
             ~ In m TextToJson.validModels)
  /\ exists res,
      @TextToJson.handler Sample.crypto (Sample.host Sample.completions)
        (Sample.remote "q1") Sample.uuid (Sample.deck_request "gpt-made-up")
        (Sample.world "gsk_live")
      = (res, Sample.world "gsk_live")
      /\ Http.status_of res <> 200%N
      /\ (TextToJson.method (Sample.deck_request "gpt-made-up") = "POST" ->
          Http.session_user (TextToJson.session (Sample.deck_request "gpt-made-up")) <> None ->
          (exists t,
              TextToJson.body_text (Sample.deck_request "gpt-made-up") = Some (JS.JStr t)
              /\ t <> "") ->
          res = Http.Json 400 (Http.message "Invalid model selection")
          \/ res = Http.Json 400 (Http.message "Model selection is required")).
Proof.
  assert (Hm : forall m,
             TextToJson.body_model (Sample.deck_request "gpt-made-up") = Some (JS.JStr m) ->
             ~ In m TextToJson.validModels).
  { intros m [= <-]. simpl. intuition discriminate. }
  split; [exact Hm|].
  exact (@invalid_model_rejected Sample.crypto (Sample.host Sample.completions)
           (Sample.remote "q1") Sample.uuid (Sample.deck_request "gpt-made-up")
           (Sample.world "gsk_live") Hm).
Defined.

(** The third end-to-end scenario. *)
Example made_up_model_scenario :
  @TextToJson.handler Sample.crypto (Sample.host Sample.completions)
    (Sample.remote "q1") Sample.uuid (Sample.deck_request "gpt-made-up")
    (Sample.world "gsk_live")
  = (Http.Json 400 (Http.message "Invalid model selection"), Sample.world "gsk_live").
Proof. reflexivity. Qed.

(** C3.  The claim asks every route that reaches the model to stop at a
    credential without the prefix [gsk_] before anything is sent.  The
    design-library and HTML generation routes do
    ([design_library_checks_prefix], [generate_html_checks_prefix]); the
    text-to-deck route does not: with a stored credential that decrypts to
    [sk-not-groq] it sends the chat request, bearer included. *)
Theorem text_to_deck_skips_prefix_check :
  @Store.getDecryptedApiKey Sample.crypto (Sample.account "sk-not-groq") = Some "sk-not-groq"
  /\ JS.startsWith "sk-not-groq" "gsk_" = false
  /\ Store.outbound
       (snd (@TextToJson.handler Sample.crypto (Sample.host Sample.completions)
               (Sample.remote "q1") Sample.uuid (Sample.deck_request "openai/gpt-oss-20b")
               (Sample.world "sk-not-groq")))
     = [ TextToJson.chat_request "sk-not-groq" "openai/gpt-oss-20b"
           (JS.replace TextToJson.default_prompt "{text}" "hello") ].
Proof. vm_compute. repeat split. Qed.

(** The same request on the design-library route is stopped. *)
Example design_library_stops_bad_prefix :
  @DesignLibrary.handler_post Sample.crypto (Sample.host []) (Sample.remote "{}") "d1"
    (Sample.design_request (Sample.image 200)) (Sample.world "sk-not-groq")
  = (Http.Json 400 (Http.message "Invalid Groq API key format"), Sample.world "sk-not-groq").
Proof. vm_compute. reflexivity. Qed.

(** ** The image size ceiling *)

Section ImageSize.
Import Store Http DesignLibrary.

Lemma imageSizeInBytes_eq (len : N) : imageSizeInBytes len = ((3 * Z.of_N len + 3) / 4)%Z.
Proof.
  unfold imageSizeInBytes, Qceiling, Qfloor, Qdiv, Qmult, Qinv, Qopp, inject_Z. simpl.
  change (Z.pos (1 * 1 * 4)) with 4%Z. Z.div_mod_to_equations. lia.
Qed.

(** The size check measures the decoded image: it fires from 5,592,406
    characters of base64 text on. *)
Lemma image_too_large_iff (len : N) :
  image_too_large len = true <-> (5592405 < len)%N.
Proof.
  unfold image_too_large, imageSizeInMB. rewrite imageSizeInBytes_eq.
  rewrite negb_true_iff.
  unfold Qle_bool, Qdiv, Qmult, Qinv, inject_Z. simpl.
  rewrite Z.leb_gt. Z.div_mod_to_equations. lia.
Qed.

Lemma image_too_large_false_iff (len : N) :
  image_too_large len = false <-> (len <= 5592405)%N.
Proof.
  destruct (image_too_large len) eqn:E.
  - apply image_too_large_iff in E. split; [done|lia].
  - split; [|done]. intros _. apply N.le_ngt. intros Hlt.
    apply image_too_large_iff in Hlt. congruence.
Qed.
End ImageSize.

Section ImageGate.
Import Store Http DesignLibrary.
Context {C : Utils.NodeCrypto} {H : Host}.

(** Past the earlier checks, an image over the ceiling is answered with a
    400 and the world is as before. *)
Lemma handler_post_too_large (remote : FetchCall -> reply) (newId : string)
  (req : PostRequest) (w : World) (image apiKey : string) (sp : SystemPromptDoc) :
  passes_checks req w image apiKey sp ->
  (100 <= length_N image)%N ->
  image_too_large (length_N image) = true ->
  handler_post remote newId req w
  = (Json 400 (message "Image too large. Maximum size is 4MB"), w).
Proof.
  intros (userId & name & description & promptId & promptKey & user
          & Hs & Hn & Hnn & Hd & Hdn & Hi & Hin & Hp & Hpt & Hc & Hsp & Hact
          & Hu & Hk & Hdec & Hkn & Hpre) Hlen Hbig.
  unfold handler_post. rewrite Hs, Hn, Hd, Hi, Hp, Hc, Hsp, Hact, Hu, Hk, Hdec, Hpre, Hbig.
  apply String.eqb_neq in Hnn, Hdn, Hin, Hkn. simpl. rewrite Hnn, Hdn, Hin, Hpt, Hkn. simpl.
  apply N.ltb_ge in Hlen. by rewrite Hlen.
Qed.

Lemma create_outbound (newId name description : string) (css analysis_ : JS.json)
  (promptKey userId : string) (w w' : World) (doc : DesignLibraryDoc) :
  create newId name description css analysis_ promptKey userId w = Return (doc, w') ->
  outbound w' = outbound w.
Proof.
  unfold create, obind. intros Hc.
  repeat case_match; simplify_eq. reflexivity.
Qed.

(** Past the earlier checks, an image under the ceiling is sent to the
    model: the log grows by the one request. *)
Lemma handler_post_sends (remote : FetchCall -> reply) (newId : string)
  (req : PostRequest) (w : World) (image apiKey : string) (sp : SystemPromptDoc) :
  passes_checks req w image apiKey sp ->
  (100 <= length_N image)%N ->
  image_too_large (length_N image) = false ->
  outbound (snd (handler_post remote newId req w))
  = outbound w ++ [vision_request apiKey image (prompt sp)].
Proof.
  intros (userId & name & description & promptId & promptKey & user
          & Hs & Hn & Hnn & Hd & Hdn & Hi & Hin & Hp & Hpt & Hc & Hsp & Hact
          & Hu & Hk & Hdec & Hkn & Hpre) Hlen Hbig.
  unfold handler_post. rewrite Hs, Hn, Hd, Hi, Hp, Hc, Hsp, Hact, Hu, Hk, Hdec, Hpre, Hbig.
  apply String.eqb_neq in Hnn, Hdn, Hin, Hkn. simpl. rewrite Hnn, Hdn, Hin, Hpt, Hkn. simpl.
  apply N.ltb_ge in Hlen. rewrite Hlen.
  unfold callGroqVisionAPI, fetch.
  repeat case_match; simplify_eq; try reflexivity.
  all: match goal with
       | Hc : create _ _ _ _ _ _ _ _ = Return _ |- _ =>
           apply create_outbound in Hc; simpl in *; by rewrite Hc
       end.
Qed.

(** C7, as amended.  The design-token creation route enforces the size
    ceiling before the model is called, and the ceiling is on the decoded
    image, [ceil (3 * length / 4)] bytes against 4 MiB: a request whose
    base64 text is longer than 5,592,405 characters is answered with the
    400 of the size check and nothing is sent, and a request whose base64
    text is at most 5,592,405 characters - so every text of at most
    4 MiB - passes the size check and is sent to the model. *)
Theorem image_size_ceiling (remote : FetchCall -> reply) (newId : string)
  (req : PostRequest) (w : World) (image apiKey : string) (sp : SystemPromptDoc) :
  passes_checks req w image apiKey sp ->
  (100 <= length_N image)%N ->
  ((5592405 < length_N image)%N ->
   handler_post remote newId req w
   = (Json 400 (message "Image too large. Maximum size is 4MB"), w))
  /\ ((length_N image <= 5592405)%N ->
      outbound (snd (handler_post remote newId req w))
      = outbound w ++ [vision_request apiKey image (prompt sp)])
  /\ ((length_N image <= 4 * 1024 * 1024)%N ->
      image_too_large (length_N image) = false).
Proof.
  intros Hready Hlen. split; [|split].
  - intros Hbig. apply (handler_post_too_large _ _ _ _ _ _ _ Hready Hlen).
    by apply image_too_large_iff.
  - intros Hsmall. apply (handler_post_sends _ _ _ _ _ _ _ Hready Hlen).
    by apply image_too_large_false_iff.
  - intros Hsmall. apply image_too_large_false_iff. lia.
Qed.

End ImageGate.

Lemma length_N_image (n : N) : DesignLibrary.length_N (Sample.image n) = n.
Proof.
  unfold Sample.image. induction n as [|n IH] using N.peano_ind; [reflexivity|].
  rewrite N.iter_succ. simpl. by rewrite IH.
Qed.

Lemma image_nonempty (n : N) : (0 < n)%N -> Sample.image n <> "".
Proof.
  intros Hn Heq. pose proof (length_N_image n) as Hl. rewrite Heq in Hl. simpl in Hl. lia.
Qed.

(** The sample request passes the checks whatever its image. *)
Lemma sample_passes_checks (n : N) :
  (0 < n)%N ->
  @DesignLibrary.passes_checks Sample.crypto (Sample.host [])
    (Sample.design_request (Sample.image n)) (Sample.world "gsk_live")
    (Sample.image n) "gsk_live" Sample.summary.
Proof.
  intros Hn.
  exists "u1", "Brand", "Brand tokens", (JS.JStr "p1"), "p1", (Sample.account "gsk_live").
  repeat split; try reflexivity; try discriminate.
  by apply image_nonempty.
Qed.

Lemma image_size_ceiling_witness :
  @DesignLibrary.passes_checks Sample.crypto (Sample.host [])
    (Sample.design_request (Sample.image 200)) (Sample.world "gsk_live")
    (Sample.image 200) "gsk_live" Sample.summary
  /\ (100 <= DesignLibrary.length_N (Sample.image 200))%N
  /\ ((5592405 < DesignLibrary.length_N (Sample.image 200))%N ->
      @DesignLibrary.handler_post Sample.crypto (Sample.host []) (Sample.remote "{}") "d1"
        (Sample.design_request (Sample.image 200)) (Sample.world "gsk_live")
      = (Http.Json 400 (Http.message "Image too large. Maximum size is 4MB"),
         Sample.world "gsk_live"))
  /\ ((DesignLibrary.length_N (Sample.image 200) <= 5592405)%N ->
      Store.outbound
        (snd (@DesignLibrary.handler_post Sample.crypto (Sample.host [])
                (Sample.remote "{}") "d1"
                (Sample.design_request (Sample.image 200)) (Sample.world "gsk_live")))
      = Store.outbound (Sample.world "gsk_live")
        ++ [DesignLibrary.vision_request "gsk_live" (Sample.image 200)
              (Store.prompt Sample.summary)])
  /\ ((DesignLibrary.length_N (Sample.image 200) <= 4 * 1024 * 1024)%N ->
      DesignLibrary.image_too_large (DesignLibrary.length_N (Sample.image 200)) = false).
Proof.
  assert (Hready := sample_passes_checks 200 ltac:(lia)).
  assert (Hlen : (100 <= DesignLibrary.length_N (Sample.image 200))%N)
    by (rewrite length_N_image; lia).
  split; [exact Hready|]. split; [exact Hlen|].
  exact (@image_size_ceiling Sample.crypto (Sample.host []) (Sample.remote "{}") "d1"
           _ _ _ _ _ Hready Hlen).
Defined.

(** The claim C7 as first stated fails one character above 4 MiB of
    base64 text: the text decodes to 3 MiB, the size check passes and the
    request goes to the model. *)
Lemma image_over_4MiB_of_text_is_sent :
  DesignLibrary.length_N (Sample.image 4194305) = 4194305%N
  /\ (4 * 1024 * 1024 < 4194305)%N
  /\ Store.outbound
       (snd (@DesignLibrary.handler_post Sample.crypto (Sample.host [])
               (Sample.remote "{}") "d1"
               (Sample.design_request (Sample.image 4194305)) (Sample.world "gsk_live")))
     = [DesignLibrary.vision_request "gsk_live" (Sample.image 4194305) "Summarize: {text}"].
Proof.
  split; [apply length_N_image|]. split; [reflexivity|].
  apply (@handler_post_sends Sample.crypto (Sample.host []) (Sample.remote "{}") "d1"
           (Sample.design_request (Sample.image 4194305)) (Sample.world "gsk_live")
           (Sample.image 4194305) "gsk_live" Sample.summary).
  - apply sample_passes_checks. lia.
  - rewrite length_N_image. lia.
  - rewrite length_N_image. reflexivity.
Qed.

(** ** View tracking *)

Section ViewTracking.
Import Store ProposalPage.

(** [findOne] returns the place of the document it returns, and writing a
    document with the same link at that place makes it the one found. *)
Lemma findOne_insert (link : string) (ps : list ProposalDoc) :
  forall (k i : nat) (p p' : ProposalDoc),
    findOne link k ps = Some (i, p) ->
    shareableLink p' = link ->
    exists pos, i = (k + pos)%nat
      /\ ps !! pos = Some p
      /\ findOne link k (<[pos := p']> ps) = Some (i, p').
Proof.
  induction ps as [|x ps IH]; intros k i p p' Hf Hl; simpl in Hf; [done|].
  destruct (String.eqb (shareableLink x) link) eqn:E.
  - injection Hf as <- <-. exists 0%nat. split; [lia|]. split; [done|].
    simpl. by rewrite Hl, String.eqb_refl.
  - destruct (IH (S k) i p p' Hf Hl) as (pos & -> & Hp & Hfi).
    exists (S pos). split; [lia|]. split; [done|]. simpl. by rewrite E.
Qed.

(** One resolution of a share token. *)
Lemma one_view_tracked (w : World) (link : string) (i : nat) (p : ProposalDoc)
  (geo : geo_reply) (now : N) (v : Visit) :
  findOne link 0 (proposals w) = Some (i, p) ->
  param_shareableLink v = link ->
  findOne link 0 (proposals (snd (getServerSideProps geo now v w)))
  = Some (i, track (visitor_ip v) (resolve_location geo) now p).
Proof.
  intros Hf Hl. unfold getServerSideProps. rewrite Hl, Hf. simpl.
  assert (Hl' : shareableLink (track (visitor_ip v) (resolve_location geo) now p) = link).
  { simpl. clear -Hf. revert Hf. generalize 0%nat.
    induction (proposals w) as [|x ps IH]; intros k; simpl; [done|].
    destruct (String.eqb_spec (shareableLink x) link); [by intros [= <- <-]|apply IH]. }
  destruct (findOne_insert link (proposals w) 0 i p _ Hf Hl') as (pos & -> & _ & Hfi).
  exact Hfi.
Qed.

Lemma lookup_failed_unknown (geo : geo_reply) :
  lookup_failed geo = true -> resolve_location geo = "unknown".
Proof. by destruct geo as [|[] []]. Qed.

(** C6.  Each resolution of the share token of a stored proposal adds
    exactly 1 to the view counter and appends exactly 1 view-detail
    record, so two successive resolutions add 2 and append 2 rows, whatever
    the location lookup answers on either visit; when a lookup fails the
    location of its row is ['unknown'] and the row is written all the
    same. *)
Theorem two_views_tracked (w : World) (link : string) (i : nat) (p : ProposalDoc)
  (geo1 geo2 : geo_reply) (now1 now2 : N) (v1 v2 : Visit) :
  findOne link 0 (proposals w) = Some (i, p) ->
  param_shareableLink v1 = link ->
  param_shareableLink v2 = link ->
  let w1 := snd (getServerSideProps geo1 now1 v1 w) in
  let w2 := snd (getServerSideProps geo2 now2 v2 w1) in
  exists p1 p2 row1 row2,
    findOne link 0 (proposals w1) = Some (i, p1)
    /\ views p1 = (views p + 1)%N
    /\ viewDetails p1 = viewDetails p ++ [row1]
    /\ findOne link 0 (proposals w2) = Some (i, p2)
    /\ views p2 = (views p + 2)%N
    /\ viewDetails p2 = viewDetails p ++ [row1; row2]
    /\ row1 = mkViewDetail (visitor_ip v1) (resolve_location geo1) now1
    /\ row2 = mkViewDetail (visitor_ip v2) (resolve_location geo2) now2
    /\ (lookup_failed geo1 = true -> location row1 = "unknown")
    /\ (lookup_failed geo2 = true -> location row2 = "unknown").
Proof.
  intros Hf Hl1 Hl2 w1 w2.
  pose proof (one_view_tracked w link i p geo1 now1 v1 Hf Hl1) as H1.
  pose proof (one_view_tracked w1 link i _ geo2 now2 v2 H1 Hl2) as H2.
  eexists _, _, _, _. split; [exact H1|]. split; [reflexivity|]. split; [reflexivity|].
  split; [exact H2|]. split; [simpl; lia|]. split; [simpl; by rewrite <- app_assoc|].
  split; [reflexivity|]. split; [reflexivity|].
  split; intros Hfail; simpl; by apply lookup_failed_unknown.
Qed.

End ViewTracking.

Lemma two_views_tracked_witness :
  ProposalPage.findOne "5f3a9c2b1d4e6f70" 0 (Store.proposals Sample.shared_world)
  = Some (1%nat, Sample.proposal)
  /\ exists p1 p2 row1 row2,
      ProposalPage.findOne "5f3a9c2b1d4e6f70" 0
        (Store.proposals
           (snd (ProposalPage.getServerSideProps (ProposalPage.GeoError "timeout") 400
                   (Sample.visit "10.0.0.7") Sample.shared_world)))
      = Some (1%nat, p1)
      /\ Store.views p1 = (Store.views Sample.proposal + 1)%N
      /\ Store.viewDetails p1 = Store.viewDetails Sample.proposal ++ [row1]
      /\ ProposalPage.findOne "5f3a9c2b1d4e6f70" 0
           (Store.proposals
              (snd (ProposalPage.getServerSideProps Sample.paris 500
                      (Sample.visit "10.0.0.8")
                      (snd (ProposalPage.getServerSideProps
                              (ProposalPage.GeoError "timeout") 400
                              (Sample.visit "10.0.0.7") Sample.shared_world)))))
         = Some (1%nat, p2)
      /\ Store.views p2 = (Store.views Sample.proposal + 2)%N
      /\ Store.viewDetails p2 = Store.viewDetails Sample.proposal ++ [row1; row2]
      /\ row1 = Store.mkViewDetail (ProposalPage.visitor_ip (Sample.visit "10.0.0.7"))
                  (ProposalPage.resolve_location (ProposalPage.GeoError "timeout")) 400
      /\ row2 = Store.mkViewDetail (ProposalPage.visitor_ip (Sample.visit "10.0.0.8"))
                  (ProposalPage.resolve_location Sample.paris) 500
      /\ (ProposalPage.lookup_failed (ProposalPage.GeoError "timeout") = true ->
          Store.location row1 = "unknown")
      /\ (ProposalPage.lookup_failed Sample.paris = true ->
          Store.location row2 = "unknown").
Proof.
  split; [reflexivity|].
  exact (two_views_tracked Sample.shared_world "5f3a9c2b1d4e6f70" 1 Sample.proposal
           (ProposalPage.GeoError "timeout") Sample.paris 400 500
           (Sample.visit "10.0.0.7") (Sample.visit "10.0.0.8")
           eq_refl eq_refl eq_refl).
Defined.

(** The two visits on the sample world: five views, and the two rows. *)
Example two_visits_scenario :
  Store.proposals
    (snd (ProposalPage.getServerSideProps Sample.paris 500 (Sample.visit "10.0.0.8")
            (snd (ProposalPage.getServerSideProps (ProposalPage.GeoError "timeout") 400
                    (Sample.visit "10.0.0.7") Sample.shared_world))))
  = [ Sample.other_proposal;
      Store.mkProposal "Offer" "<h1>Offer</h1>" "5f3a9c2b1d4e6f70" "u1" 5
        (Store.viewDetails Sample.proposal
         ++ [ Store.mkViewDetail "10.0.0.7" "unknown" 400;
              Store.mkViewDetail "10.0.0.8" "Paris, Ile-de-France, France" 500 ]) ].
Proof. reflexivity. Qed.

(** ** The stored credential *)

Section Credential.
Import Store Http Settings.
Context {C : Utils.NodeCrypto}.

(** X25.  The answer to a [GET] of the settings depends on the stored
    credential only through its presence: two worlds in which the account
    has a credential, or in which it has none, get the same answer. *)
Lemma settings_get_noninterference (remote : FetchCall -> reply) (req : Request)
  (w1 w2 : World) :
  method req = "GET" ->
  (forall userId, session_user (session req) = Some userId ->
     hasApiKey (users w1 !! userId) = hasApiKey (users w2 !! userId)) ->
  fst (handler remote req w1) = fst (handler remote req w2)
  /\ snd (handler remote req w1) = w1
  /\ (fst (handler remote req w1) = Json 401 (message "Unauthorized")
      \/ exists b, fst (handler remote req w1) = Json 200 (JS.JObj [("hasApiKey", JS.JBool b)])).
Proof.
  intros Hm Hsame. unfold handler.
  destruct (session_user (session req)) as [userId|] eqn:Hs; [|by eauto].
  rewrite Hm. simpl. rewrite (Hsame userId eq_refl). eauto.
Qed.

(** A [PUT] of a credential the remote service accepts writes the text
    of the request, trimmed, into the account: nothing encrypts it on this
    path. *)
Lemma settings_put_stores_text (remote : FetchCall -> reply) (req : Request) (w : World)
  (userId key : string) :
  method req = "PUT" ->
  session_user (session req) = Some userId ->
  body_groqApiKey req = Some (JS.JStr key) ->
  key <> "" ->
  (exists status statusText text data,
      remote (test_request key) = Response true status statusText text data) ->
  users (snd (handler remote req w))
  = base.alter (with_groqApiKey (Some (JS.trim key))) userId (users w).
Proof.
  intros Hm Hs Hb Hk (status & statusText & text & data & Hr).
  unfold handler. rewrite Hs, Hm, Hb. simpl.
  apply String.eqb_neq in Hk. rewrite Hk. simpl.
  unfold testGroqApiKey, fetch. rewrite Hr. reflexivity.
Qed.

End Credential.

(** C9.  The claim has the credential encrypted before it is persisted.
    The schema encrypts in a [save] hook, but the settings route persists
    with an update query, which runs no [save] hook: after a [PUT] of
    [gsk_new_secret] the account holds that very text, where the hook
    would have stored its envelope; the stored text is not an envelope,
    so [decrypt] is left with the legacy scheme on an empty ciphertext. *)
Theorem settings_put_stores_plaintext :
  Store.users
    (snd (@Settings.handler (Sample.remote "ok") (Sample.put_request "gsk_new_secret")
            (Sample.world "gsk_live")))
  !! "u1"
  = Some (Store.mkUser "ada@example.org" "Ada" "$2a$12$hash" (Some "gsk_new_secret"))
  /\ @Store.pre_save_groqApiKey Sample.crypto true Sample.iv
       (Store.mkUser "ada@example.org" "Ada" "$2a$12$hash" (Some "gsk_new_secret"))
     = Return
         (Store.mkUser "ada@example.org" "Ada" "$2a$12$hash"
            (Some "2a2a2a2a2a2a2a2a2a2a2a2a2a2a2a2a:7465726365735f77656e5f6b7367"))
  /\ (forall C : Utils.NodeCrypto,
        @Utils.decrypt C "gsk_new_secret" = @Utils.decrypt_legacy C "")
  /\ @Store.getDecryptedApiKey Sample.crypto
       (Store.mkUser "ada@example.org" "Ada" "$2a$12$hash" (Some "gsk_new_secret"))
     = None.
Proof.
  split; [vm_compute; reflexivity|]. split; [vm_compute; reflexivity|].
  split; [intros C; reflexivity|]. vm_compute. reflexivity.
Qed.

(** * Further properties of the routes *)

(** ** What the routes send and write *)

Section Traffic.
Import Store Http.
Context {C : Utils.NodeCrypto} {H : Host}.

(** X1.  The text-to-deck route never writes to the store, and whatever the
    request and whatever the remote service answers it sends at most one
    request, to the chat-completion endpoint: nothing is retried. *)
Theorem text_to_deck_traffic (remote : FetchCall -> reply) (uuid : nat -> string)
  (req : TextToJson.Request) (w : World) :
  let w' := snd (TextToJson.handler remote uuid req w) in
  users w' = users w
  /\ systemPrompts w' = systemPrompts w
  /\ designLibraries w' = designLibraries w
  /\ proposals w' = proposals w
  /\ (outbound w' = outbound w
      \/ exists call, outbound w' = outbound w ++ [call]
                      /\ url call = TextToJson.endpoint).
Proof.
  unfold TextToJson.handler, TextToJson.callGroqAPI, fetch, TextToJson.chat_request.
  repeat case_match; simplify_eq; simpl; repeat split; eauto.
Qed.

(** What [DesignLibrary.create] stores when it succeeds. *)
Lemma create_stores (newId name description : string) (css analysis_ : JS.json)
  (promptKey userId : string) (w w' : World) (doc : DesignLibraryDoc) :
  DesignLibrary.create newId name description css analysis_ promptKey userId w
  = Return (doc, w') ->
  w' = set_designLibraries (fun ls => ls ++ [doc]) w
  /\ libraryId doc = newId
  /\ libraryName doc = JS.trim name
  /\ libraryDescription doc = JS.trim description
  /\ castString css = Return (cssVariables doc)
  /\ castString analysis_ = Return (analysisResult doc)
  /\ systemPromptId doc = promptKey
  /\ libraryName doc <> "" /\ libraryDescription doc <> ""
  /\ cssVariables doc <> "" /\ analysisResult doc <> "".
Proof.
  unfold DesignLibrary.create, obind. intros Hc.
  destruct (castString css) as [c|] eqn:Ec; [|done].
  destruct (castString analysis_) as [a|] eqn:Ea; [|done].
  destruct (castObjectId (JS.JStr userId)) as [uid|]; [|done].
  destruct (_ || _) eqn:Eb; [done|].
  apply orb_false_iff in Eb as [Eb Ea'].
  apply orb_false_iff in Eb as [Eb Ec'].
  apply orb_false_iff in Eb as [En Ed].
  apply String.eqb_neq in En, Ed, Ec', Ea'.
  injection Hc as <- <-. simpl. repeat split; done.
Qed.

(** X2.  Creating a design library leaves no partial record: the route stores
    a record exactly when it answers 201, and then it is one record, under
    a non-empty name and description, with non-empty design tokens and
    analysis, after exactly one request to the model.  In every other case
    the collection is as before.  The accounts, templates and proposals are
    never touched, and at most one request is sent. *)
Theorem design_library_post_outcome (remote : FetchCall -> reply) (newId : string)
  (req : DesignLibrary.PostRequest) (w : World) :
  let res := fst (DesignLibrary.handler_post remote newId req w) in
  let w' := snd (DesignLibrary.handler_post remote newId req w) in
  users w' = users w
  /\ systemPrompts w' = systemPrompts w
  /\ proposals w' = proposals w
  /\ (status_of res = 201%N ->
      exists doc call,
        designLibraries w' = designLibraries w ++ [doc]
        /\ libraryId doc = newId
        /\ libraryName doc <> "" /\ libraryDescription doc <> ""
        /\ cssVariables doc <> "" /\ analysisResult doc <> ""
        /\ outbound w' = outbound w ++ [call]
        /\ url call = DesignLibrary.endpoint)
  /\ (status_of res <> 201%N -> designLibraries w' = designLibraries w)
  /\ (outbound w' = outbound w
      \/ exists call, outbound w' = outbound w ++ [call]
                      /\ url call = DesignLibrary.endpoint).
Proof.
  unfold DesignLibrary.handler_post, DesignLibrary.callGroqVisionAPI, fetch,
    DesignLibrary.vision_request.
  repeat case_match; simplify_eq; simpl;
    repeat match goal with
           | Hc : DesignLibrary.create _ _ _ _ _ _ _ _ = Return _ |- _ =>
               apply create_stores in Hc;
               destruct Hc as (-> & ? & ? & ? & ? & ? & ? & ? & ? & ? & ?)
           end;
    simpl; repeat split; intros; try done; eauto 10.
Qed.

(** X3.  The HTML generation route never writes to the store and sends at
    most one request. *)
Theorem generate_html_traffic (systemPrompt : string)
  (userPrompt : JS.json -> DesignLibraryDoc -> string)
  (remote : FetchCall -> reply) (req : GenerateHtml.Request) (w : World) :
  let w' := snd (GenerateHtml.handler systemPrompt userPrompt remote req w) in
  users w' = users w
  /\ systemPrompts w' = systemPrompts w
  /\ designLibraries w' = designLibraries w
  /\ proposals w' = proposals w
  /\ (outbound w' = outbound w
      \/ exists call, outbound w' = outbound w ++ [call]
                      /\ url call = GenerateHtml.endpoint).
Proof.
  unfold GenerateHtml.handler, GenerateHtml.callGroqAPI, fetch, GenerateHtml.html_request.
  repeat case_match; simplify_eq; simpl; repeat split; eauto.
Qed.

End Traffic.

(** ** The improvement route *)

Section Improve.
Import Store Http ImproveHtml.
Context {C : Utils.NodeCrypto}.
Variable systemPrompt : string.
Variable userPrompt : string -> string -> string.


End Improve.

(** ** The settings route *)

Section SettingsRoute.
Import Store Http Settings.


(** X5.  A credential the remote service does not accept - the test request
    fails or is answered with an error status - is refused with a 400: the
    account is as before, and the only trace is the one test request. *)
Theorem settings_put_refused (remote : FetchCall -> reply) (req : Request) (w : World)
  (userId : string) (key : JS.json) :
  method req = "PUT" ->
  session_user (session req) = Some userId ->
  JS.truthy_of (body_groqApiKey req) = Some key ->
  (forall status statusText text data,
      remote (test_request (JS.to_string key))
      <> Response true status statusText text data) ->
  handler remote req w
  = (Json 400 (message "Invalid API key"),
     mkWorld (users w) (systemPrompts w) (designLibraries w) (proposals w)
       (outbound w ++ [test_request (JS.to_string key)])).
Proof.
  intros Hm Hs Hk Hr. unfold handler. rewrite Hs, Hm, Hk. simpl.
  unfold testGroqApiKey, fetch.
  destruct (remote (test_request (JS.to_string key))) as [e|[] status statusText text data] eqn:E;
    try reflexivity.
  by destruct (Hr status statusText text data).
Qed.


End SettingsRoute.

(** ** The stored credential and the hooks of the account *)

Section Hooks.
Import Store Utils Buffer.
Context {C : NodeCrypto}.

Lemma split_colon_no_colon (s : string) : no_colon s = true -> split_colon s = [s].
Proof.
  induction s as [|c s IH]; simpl; [done|].
  intros [Hc Hs]%andb_true_iff. apply negb_true_iff in Hc. rewrite Hc.
  by rewrite (IH Hs).
Qed.

(** X7.  A stored text that is not an envelope - no colon in it, and not the
    32 hexadecimal digits of an IV - is never deciphered by the first
    strategy of [decrypt] : the legacy strategy is run on an empty
    ciphertext, and when that fails too, [decrypt] throws and
    [getDecryptedApiKey] answers [null]. *)
Theorem decrypt_without_envelope (u : UserDoc) (text : string) :
  groqApiKey u = Some text ->
  text <> "" ->
  no_colon text = true ->
  length (from_hex text) <> 16%nat ->
  decrypt text = decrypt_legacy ""
  /\ (legacy_decipher ENCRYPTION_KEY [] = None ->
      decrypt text = Throw "Failed to decrypt API key with both methods"
      /\ getDecryptedApiKey u = None).
Proof.
  intros Hu Hne Hnc Hlen.
  assert (Hd : decrypt text = decrypt_legacy "").
  { unfold decrypt. rewrite (split_colon_no_colon _ Hnc). simpl.
    unfold decrypt_primary. apply Nat.eqb_neq in Hlen. by rewrite Hlen. }
  split; [exact Hd|]. intros Hl.
  assert (Ht : decrypt text = Throw "Failed to decrypt API key with both methods").
  { rewrite Hd. unfold decrypt_legacy. simpl. by rewrite Hl. }
  split; [exact Ht|]. unfold getDecryptedApiKey. rewrite Hu.
  apply String.eqb_neq in Hne. by rewrite Hne, Ht.
Qed.

Context {L : NodeCryptoLaws C}.

Lemma decrypt_envelope (s : string) (iv : buffer) :
  length iv = 16%nat ->
  decrypt (to_hex iv +:+ ":" +:+ to_hex (cipheriv derived_key iv (from_utf8 s))) = Return s.
Proof.
  intros Hiv. unfold decrypt. rewrite shift_join_envelope by apply no_colon_hex.
  unfold decrypt_primary. rewrite !from_hex_to_hex, Hiv. simpl.
  rewrite decipheriv_cipheriv by exact Hiv.
  unfold to_utf8, from_utf8. by rewrite string_of_list_byte_of_string.
Qed.

Lemma envelope_nonempty (a b : string) : a +:+ ":" +:+ b <> "".
Proof. by destruct a. Qed.

(** X8.  Saving an account whose credential was modified replaces the
    credential by its envelope and nothing else, and
    [getDecryptedApiKey] on the saved account gives the credential back;
    saving an account whose credential was not modified changes nothing. *)
Theorem saved_credential_decrypts (u : UserDoc) (key : string) (iv : buffer) :
  groqApiKey u = Some key ->
  key <> "" ->
  length iv = 16%nat ->
  pre_save_groqApiKey false iv u = Return u
  /\ exists u',
      pre_save_groqApiKey true iv u = Return u'
      /\ email u' = email u /\ userName u' = userName u /\ password u' = password u
      /\ groqApiKey u'
         = Some (to_hex iv +:+ ":" +:+ to_hex (cipheriv derived_key iv (from_utf8 key)))
      /\ getDecryptedApiKey u' = Some key.
Proof.
  intros Hu Hk Hiv. split; [reflexivity|].
  eexists. split.
  - unfold pre_save_groqApiKey. simpl. rewrite Hu.
    apply String.eqb_neq in Hk. rewrite Hk. unfold encrypt. rewrite Hiv. simpl. reflexivity.
  - simpl. repeat split. unfold getDecryptedApiKey. simpl.
    pose proof (envelope_nonempty (to_hex iv)
                  (to_hex (cipheriv derived_key iv (from_utf8 key)))) as Hne.
    apply String.eqb_neq in Hne. rewrite Hne.
    by rewrite (decrypt_envelope key iv Hiv).
Qed.

End Hooks.

(** ** The text-to-deck route *)

Section DeckRoute.
Import Store Http JS Deck TextToJson Routes.
Context {C : Utils.NodeCrypto} {H : Host}.

(** Past its checks the handler is the call of the model, answered with
    a 200 or through the [catch]. *)
Lemma deck_ready_handler (remote : FetchCall -> reply) (uuid : nat -> string)
  (req : Request) (w : World) (text model apiKey : string) :
  deck_ready req w text model apiKey ->
  handler remote uuid req w
  = match callGroqAPI remote uuid apiKey text model (body_systemPromptId req) w with
    | (Return result, w') => (Json 200 result, w')
    | (Throw e, w') => (on_error e, w')
    end.
Proof.
  intros (Hm & Ht & Htn & Hb & Hin & userId & user & stored
          & Hs & Hu & Hk & Hkn & Hd & Hdn).
  unfold handler. rewrite Hm, Hs, Ht, Hb, Hu, Hk, Hd. simpl.
  apply String.eqb_neq in Htn, Hkn, Hdn. rewrite Htn.
  assert (model <> "") as Hmn%String.eqb_neq.
  { intros ->. simpl in Hin. intuition discriminate. }
  rewrite Hmn.
  assert (validModels_includes model = true) as ->.
  { unfold validModels_includes. apply existsb_exists.
    exists model. split; [done|]. apply String.eqb_refl. }
  simpl. destruct stored as [|c stored]; [done|]. destruct apiKey as [|c' apiKey]; [done|].
  reflexivity.
Qed.

(** X9.  A template that is missing or switched off stops the request before
    anything is sent: the answer is a 500 that names the cause, and the
    world is as before. *)
Theorem inactive_template_stops_request (remote : FetchCall -> reply)
  (uuid : nat -> string) (req : Request) (w : World) (text model apiKey : string)
  (id : json) (key : string) :
  deck_ready req w text model apiKey ->
  body_systemPromptId req = Some id ->
  truthy id = true ->
  castObjectId id = Some key ->
  (systemPrompts w !! key = None
   \/ exists sp, systemPrompts w !! key = Some sp /\ isActive sp = false) ->
  handler remote uuid req w
  = (Json 500
       (JObj
          [ ("message", JStr "An error occurred while processing your request");
            ("error", JStr "System prompt not found or inactive") ]),
     w).
Proof.
  intros Hready Hid Ht Hc Hsp.
  rewrite (deck_ready_handler _ _ _ _ _ _ _ Hready).
  unfold callGroqAPI, resolve_prompt. rewrite Hid, Ht, Hc.
  destruct Hsp as [-> | (sp & -> & ->)]; reflexivity.
Qed.

(** X10.  An error status of the remote service comes back through the
    [catch] of the handler with the status and its text in the message,
    after the one request: for a status text that mentions neither an API
    key nor a rate limit the answer is a 500 carrying
    [Groq API error: <status> <statusText>]. *)
Theorem upstream_error_surfaces (remote : FetchCall -> reply) (uuid : nat -> string)
  (req : Request) (w : World) (text model apiKey resolved : string)
  (status : N) (statusText body : string) (data : completion) :
  deck_ready req w text model apiKey ->
  resolve_prompt w text (body_systemPromptId req) = Return resolved ->
  remote (chat_request apiKey model resolved) = Response false status statusText body data ->
  let error := "Groq API error: " +:+ pretty status +:+ " " +:+ statusText in
  handler remote uuid req w
  = (on_error error,
     mkWorld (users w) (systemPrompts w) (designLibraries w) (proposals w)
       (outbound w ++ [chat_request apiKey model resolved]))
  /\ (includes error "API key" = false ->
      includes error "rate limit" = false ->
      on_error error
      = Json 500
          (JObj
             [ ("message", JStr "An error occurred while processing your request");
               ("error", JStr error) ])).
Proof.
  intros Hready Hr Hremote error. split.
  - rewrite (deck_ready_handler _ _ _ _ _ _ _ Hready).
    unfold callGroqAPI. rewrite Hr. unfold fetch. rewrite Hremote. reflexivity.
  - intros Hk Hl. unfold on_error. by rewrite Hk, Hl.
Qed.

(** X11.  A completion that is not JSON, or that fails the validation, never
    gives a deck: the answer is the 500 of an invalid model response,
    after the one request. *)
Theorem malformed_completion_surfaces (remote : FetchCall -> reply) (uuid : nat -> string)
  (req : Request) (w : World) (text model apiKey resolved : string)
  (status : N) (statusText body content : string) :
  deck_ready req w text model apiKey ->
  resolve_prompt w text (body_systemPromptId req) = Return resolved ->
  remote (chat_request apiKey model resolved)
  = Response true status statusText body (Content (Some content)) ->
  content <> "" ->
  (JSON_parse content = None
   \/ exists j e, JSON_parse content = Some j /\ validate_and_enhance uuid j = Throw e) ->
  handler remote uuid req w
  = (Json 500
       (JObj
          [ ("message", JStr "An error occurred while processing your request");
            ("error", JStr "Invalid JSON response from AI model") ]),
     mkWorld (users w) (systemPrompts w) (designLibraries w) (proposals w)
       (outbound w ++ [chat_request apiKey model resolved])).
Proof.
  intros Hready Hr Hremote Hc Hbad.
  rewrite (deck_ready_handler _ _ _ _ _ _ _ Hready).
  unfold callGroqAPI. rewrite Hr. unfold fetch. rewrite Hremote. simpl.
  apply String.eqb_neq in Hc. rewrite Hc. unfold parse_completion.
  destruct Hbad as [-> | (j & e & -> & ->)]; reflexivity.
Qed.

(** X12.  With a stored, active template the caller's text takes the place of
    the first placeholder and the rest of the template stays as it is,
    provided the text has no [$]; a template without a placeholder is sent
    as it is, and the text is dropped. *)
Theorem stored_template_resolution (w : World) (text : string) (id : json)
  (key : string) (sp : SystemPromptDoc) :
  truthy id = true ->
  castObjectId id = Some key ->
  systemPrompts w !! key = Some sp ->
  isActive sp = true ->
  (forall before after,
      split_first "{text}" (prompt sp) = Some (before, after) ->
      dollar_free text = true ->
      prompt sp = before +:+ "{text}" +:+ after
      /\ resolve_prompt w text (Some id) = Return (before +:+ text +:+ after))
  /\ (split_first "{text}" (prompt sp) = None ->
      resolve_prompt w text (Some id) = Return (prompt sp)).
Proof.
  intros Ht Hc Hsp Ha. unfold resolve_prompt. rewrite Ht, Hc, Hsp, Ha. split.
  - intros before after Hs Hd.
    destruct (replace_literal _ _ _ _ Hs Hd) as [Hp Hrep]. by rewrite Hrep.
  - intros Hs. unfold replace. by rewrite Hs.
Qed.

Lemma set_field_same (k : string) (v : json) (fs : list (string * json)) :
  lookup_field k fs = Some v -> set_field k v fs = fs.
Proof.
  induction fs as [|[k' v'] fs IH]; simpl; [done|].
  destruct (String.eqb_spec k k') as [->|Hne].
  - by intros [= ->].
  - intros Hl. by rewrite (IH Hl).
Qed.

(** A slide that came out of the normalizer goes through it unchanged,
    and no token is drawn for it. *)
Lemma enhanced_fixed (token token' : string) (slide : json) :
  token <> "" ->
  enhance_slide token' (enhanced token slide) = Return (enhanced token slide, false).
Proof.
  intros Htok. unfold enhanced.
  set (I := or_else (field "id" slide) (JStr token)).
  set (T := or_else (field "type" slide) (JStr "content")).
  assert (HI : truthy I = true).
  { apply or_else_truthy. simpl. by apply negb_true_iff, String.eqb_neq. }
  assert (HT : truthy T = true) by (by apply or_else_truthy).
  set (fs := set_field "type" T (set_field "id" I (spread slide))).
  assert (Hid : lookup_field "id" fs = Some I).
  { unfold fs. rewrite lookup_set_field_ne by done. apply lookup_set_field_eq. }
  assert (Hty : lookup_field "type" fs = Some T) by apply lookup_set_field_eq.
  unfold enhance_slide. simpl. fold fs. rewrite Hid, Hty. simpl. rewrite HI, HT.
  rewrite (set_field_same "id" I fs Hid), (set_field_same "type" T fs Hty). reflexivity.
Qed.

Lemma enhance_slides_inv (uuid : nat -> string) (items : list json) :
  forall (n : nat) (out : list json),
    enhance_slides uuid n items = Return out ->
    Forall (fun e => exists k slide, e = enhanced (uuid k) slide) out.
Proof.
  induction items as [|s items IH]; intros n out; simpl.
  - intros [= <-]. constructor.
  - assert (Hs : s = JNull \/ s <> JNull) by (destruct s; auto).
    destruct Hs as [->|Hs]; [done|].
    rewrite enhance_slide_nonnull by done. simpl.
    destruct (enhance_slides uuid _ items) as [rest|e] eqn:E; simpl; [|done].
    intros [= <-]. constructor; [by eexists _, _|]. by eapply IH.
Qed.

Lemma enhance_slides_fixed (uuid uuid' : nat -> string) (out : list json) :
  (forall n, uuid n <> "") ->
  Forall (fun e => exists k slide, e = enhanced (uuid k) slide) out ->
  forall n, enhance_slides uuid' n out = Return out.
Proof.
  intros Huuid Hall. induction Hall as [|e out (k & slide & ->) _ IH]; intros n.
  - reflexivity.
  - cbn [enhance_slides]. rewrite (enhanced_fixed _ _ _ (Huuid k)). simpl.
    by rewrite IH.
Qed.

(** X13.  The normalizer is idempotent: a deck it returned is returned again
    as it is when it is given back as a completion - same title, same
    count, same slides - and no new identifier is drawn. *)
Theorem normalizer_idempotent (uuid uuid' : nat -> string) (j result : json) :
  (forall n, uuid n <> "") ->
  validate_and_enhance uuid j = Return result ->
  validate_and_enhance uuid' result = Return result.
Proof.
  intros Huuid Hv. unfold validate_and_enhance in Hv.
  destruct (prop j "slides") as [slides|] eqn:Es; simpl in Hv; [|done].
  destruct (negb (truthy_value slides) || negb (isArray slides)); [done|].
  destruct slides as [[| | | |items|]|]; try done.
  destruct (enhance_slides uuid 0 items) as [out|] eqn:Eo; simpl in Hv; [|done].
  destruct (prop j "presentationTitle") as [title|] eqn:Et; simpl in Hv; [|done].
  injection Hv as <-.
  assert (Htitle : truthy (or_else title (JStr "Generated Presentation")) = true)
    by (by apply or_else_truthy).
  unfold validate_and_enhance. simpl.
  rewrite (enhance_slides_fixed uuid uuid' out Huuid (enhance_slides_inv _ _ _ _ Eo)).
  simpl. by rewrite Htitle.
Qed.

End DeckRoute.

(** ** The page of a shared proposal *)

Section SharedPage.
Import Store ProposalPage Routes.

Lemma findOne_lookup (link : string) (ps : list ProposalDoc) :
  forall (k i : nat) (p : ProposalDoc),
    findOne link k ps = Some (i, p) ->
    exists pos, i = (k + pos)%nat /\ ps !! pos = Some p /\ shareableLink p = link.
Proof.
  induction ps as [|x ps IH]; intros k i p; simpl; [done|].
  destruct (String.eqb_spec (shareableLink x) link) as [Hl|Hl].
  - intros [= <- <-]. exists 0%nat. split; [lia|]. by split.
  - intros Hf. destruct (IH _ _ _ Hf) as (pos & -> & Hp & Hlink).
    exists (S pos). split; [lia|]. by split.
Qed.

(** X14.  A visit touches the visited proposal and nothing else.  An unknown
    link gives the not-found page and leaves the world as it is: no lookup
    is made for it.  A known link sends the one lookup of the visitor's
    address; the accounts, templates and design libraries stay, the
    proposals stay as many, every other proposal is as before, and the
    visited one keeps its name, page, link and owner. *)
Theorem visit_frame (geo : geo_reply) (now : N) (v : Visit) (w : World) :
  let w' := snd (getServerSideProps geo now v w) in
  (findOne (param_shareableLink v) 0 (proposals w) = None ->
   getServerSideProps geo now v w = (NotFound, w))
  /\ (forall i p,
        findOne (param_shareableLink v) 0 (proposals w) = Some (i, p) ->
        users w' = users w
        /\ systemPrompts w' = systemPrompts w
        /\ designLibraries w' = designLibraries w
        /\ outbound w' = outbound w ++ [lookup_request (visitor_ip v)]
        /\ length (proposals w') = length (proposals w)
        /\ (forall j, j <> i -> proposals w' !! j = proposals w !! j)
        /\ exists p',
            proposals w' !! i = Some p'
            /\ proposalName p' = proposalName p /\ html p' = html p
            /\ shareableLink p' = shareableLink p /\ owner p' = owner p).
Proof.
  intros w'. split.
  - intros Hf. unfold getServerSideProps. by rewrite Hf.
  - intros i p Hf. subst w'. unfold getServerSideProps. rewrite Hf. simpl.
    destruct (findOne_lookup _ _ _ _ _ Hf) as (pos & Hi & Hp & _). simpl in Hi. subst pos.
    do 4 (split; [done|]). split; [by rewrite length_insert|].
    split; [intros j Hj; by rewrite list_lookup_insert_ne|].
    exists (track (visitor_ip v) (resolve_location geo) now p). split; [|by repeat split].
    apply list_lookup_insert_eq. by eapply lookup_lt_Some.
Qed.

(** X15.  When the counter of every stored proposal agrees with the number of
    its rows, it still does after a visit, whatever the visit. *)
Theorem visits_keep_count (geo : geo_reply) (now : N) (v : Visit) (w : World) :
  Forall counted (proposals w) ->
  Forall counted (proposals (snd (getServerSideProps geo now v w))).
Proof.
  intros Hall. unfold getServerSideProps.
  destruct (findOne (param_shareableLink v) 0 (proposals w)) as [[i p]|] eqn:Hf; [|done].
  simpl. destruct (findOne_lookup _ _ _ _ _ Hf) as (pos & Hi & Hp & _).
  simpl in Hi. subst pos.
  apply Forall_insert; [done|].
  assert (Hc : counted p) by (eapply Forall_lookup_1; eauto).
  unfold counted in *. simpl. rewrite length_app. simpl. lia.
Qed.

Lemma replace_all_absent (pat repl : string) (s : string) :
  forall seen, JS.occurrences pat s = 0%nat -> JS.replace_all_from pat repl seen 0 s = s.
Proof.
  induction s as [|c s IH]; intros seen; [done|].
  cbn [JS.occurrences JS.replace_all_from].
  destruct (String.prefix pat (String c s)); [done|].
  simpl. intros Ho. by rewrite IH.
Qed.

(** X16.  A page that does not mention [localhost:3000] is served as it was
    stored, under the stored name, whatever the [Host] header says. *)
Theorem page_without_marker_served_as_stored (geo : geo_reply) (now : N) (v : Visit)
  (w : World) (i : nat) (p : ProposalDoc) :
  findOne (param_shareableLink v) 0 (proposals w) = Some (i, p) ->
  JS.occurrences "localhost:3000" (html p) = 0%nat ->
  fst (getServerSideProps geo now v w) = Props (proposalName p) (html p).
Proof.
  intros Hf Ho. unfold getServerSideProps. rewrite Hf. simpl.
  unfold JS.replace_all. by rewrite replace_all_absent.
Qed.

End SharedPage.

(** ** The proposals route *)

Section ProposalsRoute.
Import Store Http ProposalsApi Routes.
Context {H : Host}.
Variable document : ProposalDoc -> JS.json.

(** X17.  Reading proposals through the route is open and leaves no trace: a
    [GET] is answered the same with or without a session, it never changes
    the world - a proposal read this way gets no view - and without a
    single link in the query it lists every stored proposal. *)
Theorem proposals_get_open (random : Buffer.buffer) (req : Request) (w : World) :
  method req = "GET" ->
  snd (handler document random req w) = w
  /\ (forall who' name' html',
        handler document random
          (mkRequest "GET" who' name' html' (query_shareableLink req)) w
        = handler document random req w)
  /\ (forall link,
        query_shareableLink req = One link ->
        fst (handler document random req w)
        = match ProposalPage.findOne link 0 (proposals w) with
          | Some (_, p) => Json 200 (document p)
          | None => Json 404 (message "Proposal not found")
          end)
  /\ ((forall link, query_shareableLink req <> One link) ->
      fst (handler document random req w)
      = Json 200 (JS.JArr (List.map document (proposals w)))).
Proof.
  intros Hm. unfold handler. rewrite Hm. simpl. repeat split.
  - repeat case_match; done.
  - intros link ->. by repeat case_match.
  - intros Hq. destruct (query_shareableLink req) as [|link|ls]; try done.
    by destruct (Hq link).
Qed.




End ProposalsRoute.

(** ** Managing templates and design libraries *)

Section Templates.
Import Store Http SystemPrompts.
Context {H : Host}.
Variable document : SystemPromptDoc -> JS.json.

(** What an accepted [PUT] did. *)
Lemma handler_put_ok (req : PutRequest) (w : World) :
  status_of (fst (handler_put document req w)) = 200%N ->
  exists id key u sp,
    JS.truthy_of (body_id req) = Some id
    /\ castObjectId id = Some key
    /\ cast_update req = Return u
    /\ systemPrompts w !! key = Some sp
    /\ handler_put document req w
       = (Json 200 (document (apply_update u sp)),
          mkWorld (users w) (<[key := apply_update u sp]> (systemPrompts w))
            (designLibraries w) (proposals w) (outbound w)).
Proof.
  unfold handler_put, findByIdAndUpdate, obind.
  intros Hs. repeat case_match; simplify_eq; try done.
  all: eexists _, _, _, _; repeat split; eauto.
Qed.

(** X19.  Switching a template off takes it out of use: after a [PUT] with
    [isActive: false] that was answered 200, resolving a prompt with that
    template throws [System prompt not found or inactive], for every text;
    the [PUT] changed nothing but the templates, and no other template. *)
Theorem deactivated_template_unusable (req : PutRequest) (w : World) (id : JS.json)
  (text : string) :
  status_of (fst (handler_put document req w)) = 200%N ->
  body_id req = Some id ->
  body_isActive req = Some (JS.JBool false) ->
  let w' := snd (handler_put document req w) in
  TextToJson.resolve_prompt w' text (Some id)
  = Throw "System prompt not found or inactive"
  /\ users w' = users w /\ designLibraries w' = designLibraries w
  /\ proposals w' = proposals w /\ outbound w' = outbound w
  /\ (forall key', castObjectId id <> Some key' ->
        systemPrompts w' !! key' = systemPrompts w !! key').
Proof.
  intros Hs Hid Hact w'.
  destruct (handler_put_ok req w Hs) as (id' & key & u & sp & Hi & Hc & Hu & Hsp & Hput).
  subst w'. rewrite Hput. simpl.
  assert (id' = id /\ JS.truthy id = true) as [-> Ht].
  { rewrite Hid in Hi. simpl in Hi. destruct (JS.truthy id); by simplify_eq. }
  assert (Hflag : set_isActive u = Some false).
  { unfold cast_update, obind in Hu. repeat case_match; simplify_eq.
    simpl. by rewrite Hact. }
  split.
  - unfold TextToJson.resolve_prompt. rewrite Ht, Hc. simpl.
    rewrite lookup_insert_eq. simpl. by rewrite Hflag.
  - do 4 (split; [done|]). intros key' Hk. rewrite lookup_insert_ne; [done|].
    intros ->. by destruct Hk.
Qed.

(** X20.  A template that was deleted is gone: after a [DELETE] answered 200,
    resolving a prompt with it throws, a second [DELETE] is answered 404
    and changes nothing, and every other template is as before. *)
Theorem deleted_template_gone (req : DeleteRequest) (w : World) (id : JS.json)
  (text : string) :
  status_of (fst (handler_delete req w)) = 200%N ->
  query_id req = Some id ->
  let w' := snd (handler_delete req w) in
  TextToJson.resolve_prompt w' text (Some id)
  = Throw "System prompt not found or inactive"
  /\ handler_delete req w' = (Json 404 (message "Prompt not found"), w')
  /\ users w' = users w /\ designLibraries w' = designLibraries w
  /\ proposals w' = proposals w /\ outbound w' = outbound w
  /\ (forall key', castObjectId id <> Some key' ->
        systemPrompts w' !! key' = systemPrompts w !! key').
Proof.
  intros Hs Hid w'. subst w'. revert Hs. unfold handler_delete.
  destruct (session_user (delete_session req)) as [userId|]; [|done].
  rewrite Hid. unfold JS.truthy_of. destruct (JS.truthy id) eqn:Ht; [|done].
  destruct (castObjectId id) as [key|] eqn:Hc; [|done].
  destruct (systemPrompts w !! key) as [sp|] eqn:Hsp; [|done].
  intros _. simpl. split.
  - unfold TextToJson.resolve_prompt. rewrite Ht, Hc. simpl. by rewrite lookup_delete_eq.
  - split; [by rewrite lookup_delete_eq|]. do 4 (split; [done|]).
    intros key' Hk. rewrite lookup_delete_ne; [done|]. intros ->. by destruct Hk.
Qed.

End Templates.

Section Libraries.
Import Store Http DesignLibraryAdmin Routes.
Context {H : Host}.
Variable document : DesignLibraryDoc -> JS.json.

Lemma same_tokens_refl (ls : list DesignLibraryDoc) : Forall2 same_tokens ls ls.
Proof. induction ls; constructor; [by repeat split | done]. Qed.

Lemma update_first_tokens (key : string) (ls : list DesignLibraryDoc)
  (d updated : DesignLibraryDoc) :
  List.find (fun x => String.eqb (libraryId x) key) ls = Some d ->
  same_tokens d updated ->
  Forall2 same_tokens ls (update_first key (fun _ => updated) ls).
Proof.
  intros Hf Hsame. induction ls as [|x ls IH]; simpl in *; [done|].
  destruct (String.eqb (libraryId x) key).
  - injection Hf as ->. constructor; [done | apply same_tokens_refl].
  - constructor; [by repeat split | by apply IH].
Qed.

(** X21.  Editing a design library never touches what the model wrote: after
    any [PUT], accepted or not, the collection holds the same libraries in
    the same order, each with its identifier, design tokens, analysis,
    template and owner as before; only a name or a description can differ.
    Nothing else in the world changes and nothing is sent. *)
Theorem library_put_keeps_tokens (req : PutRequest) (w : World) :
  let w' := snd (handler_put document req w) in
  Forall2 same_tokens (designLibraries w) (designLibraries w')
  /\ users w' = users w /\ systemPrompts w' = systemPrompts w
  /\ proposals w' = proposals w /\ outbound w' = outbound w.
Proof.
  unfold handler_put.
  repeat case_match; simplify_eq; simpl; repeat split; try apply same_tokens_refl.
  all: eapply update_first_tokens; [eassumption|]; by repeat split.
Qed.

Lemma remove_first_split (key : string) (ls : list DesignLibraryDoc) (d : DesignLibraryDoc) :
  List.find (fun x => String.eqb (libraryId x) key) ls = Some d ->
  exists before after,
    ls = before ++ d :: after
    /\ libraryId d = key
    /\ Forall (fun x => libraryId x <> key) before
    /\ remove_first key ls = before ++ after.
Proof.
  induction ls as [|x ls IH]; simpl; [done|].
  destruct (String.eqb_spec (libraryId x) key) as [Hk|Hk].
  - intros [= ->]. exists [], ls. by repeat split.
  - intros Hf. destruct (IH Hf) as (before & after & -> & Hd & Hall & Hr).
    exists (x :: before), after. rewrite Hr. repeat split; try done.
    by constructor.
Qed.

(** X22.  A [DELETE] answered 200 removes one library, the first one stored
    under the identifier, and keeps the others in their order; a [DELETE]
    answered otherwise removes nothing.  Nothing else changes. *)
Theorem library_delete_removes_one (req : DeleteRequest) (w : World) :
  let res := fst (handler_delete req w) in
  let w' := snd (handler_delete req w) in
  (status_of res = 200%N ->
   exists id key before d after,
     JS.truthy_of (query_id req) = Some id
     /\ castObjectId id = Some key
     /\ designLibraries w = before ++ d :: after
     /\ libraryId d = key
     /\ Forall (fun x => libraryId x <> key) before
     /\ designLibraries w' = before ++ after)
  /\ (status_of res <> 200%N -> designLibraries w' = designLibraries w)
  /\ users w' = users w /\ systemPrompts w' = systemPrompts w
  /\ proposals w' = proposals w /\ outbound w' = outbound w.
Proof.
  unfold handler_delete, GenerateHtml.findById.
  repeat case_match; simplify_eq; simpl; repeat split; intros; try done.
  match goal with
  | Hid : JS.truthy_of _ = Some ?id, Hkey : castObjectId _ = Some ?key,
    Hf : List.find _ _ = Some ?d |- _ =>
      destruct (remove_first_split _ _ _ Hf) as (before & after & Hl & Hk & Hall & Hr);
      exists id, key, before, d, after
  end.
  by repeat split.
Qed.

End Libraries.

(** ** The statements at work *)

Lemma settings_put_refused_witness :
  Settings.method (Sample.put_request "gsk_revoked") = "PUT"
  /\ Settings.handler Cases.refusing (Sample.put_request "gsk_revoked")
       (Sample.world "gsk_live")
     = (Http.Json 400 (Http.message "Invalid API key"),
        Store.mkWorld (Store.users (Sample.world "gsk_live"))
          (Store.systemPrompts (Sample.world "gsk_live")) [] []
          [Settings.test_request "gsk_revoked"]).
Proof.
  split; [reflexivity|].
  apply (settings_put_refused Cases.refusing (Sample.put_request "gsk_revoked")
           (Sample.world "gsk_live") "u1" (JS.JStr "gsk_revoked"));
    [reflexivity | reflexivity | reflexivity | intros; discriminate].
Defined.


Lemma decrypt_without_envelope_witness :
  Utils.no_colon "gsk_plain" = true
  /\ @Utils.decrypt Sample.crypto "gsk_plain"
     = Throw "Failed to decrypt API key with both methods"
  /\ @Store.getDecryptedApiKey Sample.crypto Cases.plain_account = None.
Proof.
  split; [reflexivity|].
  apply (@decrypt_without_envelope Sample.crypto Cases.plain_account "gsk_plain");
    [reflexivity | discriminate | reflexivity | vm_compute; discriminate | reflexivity].
Defined.

Lemma saved_credential_decrypts_witness :
  length Sample.iv = 16%nat
  /\ exists u',
      @Store.pre_save_groqApiKey Sample.crypto true Sample.iv Cases.plain_account = Return u'
      /\ Store.groqApiKey u' <> Some "gsk_plain"
      /\ @Store.getDecryptedApiKey Sample.crypto u' = Some "gsk_plain".
Proof.
  split; [reflexivity|].
  destruct (@saved_credential_decrypts Sample.crypto sample_crypto_laws Cases.plain_account
              "gsk_plain" Sample.iv eq_refl ltac:(discriminate) eq_refl)
    as (_ & u' & Hsave & _ & _ & _ & Hstored & Hget).
  exists u'. split; [exact Hsave|]. split; [|exact Hget].
  rewrite Hstored. vm_compute. discriminate.
Defined.

Lemma cases_deck_ready (template : string) :
  @Routes.deck_ready Sample.crypto (Cases.deck_request template) Cases.world
    "hello" "openai/gpt-oss-20b" "gsk_live".
Proof.
  unfold Routes.deck_ready. do 2 (split; [reflexivity|]). split; [discriminate|].
  split; [reflexivity|]. split; [simpl; auto|].
  exists "u1", (Sample.account "gsk_live"), (Sample.stored "gsk_live").
  do 3 (split; [reflexivity|]). split; [vm_compute; discriminate|].
  split; [vm_compute; reflexivity | discriminate].
Qed.

Lemma inactive_template_stops_request_witness :
  Store.isActive Cases.retired = false
  /\ @TextToJson.handler Sample.crypto (Sample.host Sample.completions) (Sample.remote "q1")
       Sample.uuid (Cases.deck_request "p2") Cases.world
     = (Http.Json 500
          (JS.JObj
             [ ("message", JS.JStr "An error occurred while processing your request");
               ("error", JS.JStr "System prompt not found or inactive") ]),
        Cases.world).
Proof.
  split; [reflexivity|].
  apply (@inactive_template_stops_request Sample.crypto (Sample.host Sample.completions)
           (Sample.remote "q1") Sample.uuid (Cases.deck_request "p2") Cases.world
           "hello" "openai/gpt-oss-20b" "gsk_live" (JS.JStr "p2") "p2"
           (cases_deck_ready "p2") eq_refl eq_refl eq_refl).
  right. exists Cases.retired. split; reflexivity.
Defined.

Lemma upstream_error_surfaces_witness :
  @TextToJson.resolve_prompt (Sample.host []) Cases.world "hello" (Some (JS.JStr "p1"))
  = Return "Summarize: hello"
  /\ @TextToJson.handler Sample.crypto (Sample.host []) Cases.limited Sample.uuid
       (Cases.deck_request "p1") Cases.world
     = (Http.Json 500
          (JS.JObj
             [ ("message", JS.JStr "An error occurred while processing your request");
               ("error", JS.JStr "Groq API error: 429 Too Many Requests") ]),
        Store.mkWorld (Store.users Cases.world) (Store.systemPrompts Cases.world) [] []
          [TextToJson.chat_request "gsk_live" "openai/gpt-oss-20b" "Summarize: hello"]).
Proof.
  assert (Hr : @TextToJson.resolve_prompt (Sample.host []) Cases.world "hello"
                 (Some (JS.JStr "p1")) = Return "Summarize: hello") by reflexivity.
  split; [exact Hr|].
  destruct (@upstream_error_surfaces Sample.crypto (Sample.host []) Cases.limited Sample.uuid
              (Cases.deck_request "p1") Cases.world "hello" "openai/gpt-oss-20b" "gsk_live"
              "Summarize: hello" 429%N "Too Many Requests" "" (Store.Content None)
              (cases_deck_ready "p1") Hr eq_refl) as [Hh He].
  rewrite Hh, He by reflexivity. reflexivity.
Defined.

Lemma malformed_completion_surfaces_witness :
  @Store.JSON_parse (Sample.host Sample.completions) "not json" = None
  /\ @TextToJson.handler Sample.crypto (Sample.host Sample.completions)
       (Sample.remote "not json") Sample.uuid (Cases.deck_request "p1") Cases.world
     = (Http.Json 500
          (JS.JObj
             [ ("message", JS.JStr "An error occurred while processing your request");
               ("error", JS.JStr "Invalid JSON response from AI model") ]),
        Store.mkWorld (Store.users Cases.world) (Store.systemPrompts Cases.world) [] []
          [TextToJson.chat_request "gsk_live" "openai/gpt-oss-20b" "Summarize: hello"]).
Proof.
  split; [reflexivity|].
  apply (@malformed_completion_surfaces Sample.crypto (Sample.host Sample.completions)
           (Sample.remote "not json") Sample.uuid (Cases.deck_request "p1") Cases.world
           "hello" "openai/gpt-oss-20b" "gsk_live" "Summarize: hello" 200%N "OK" ""
           "not json" (cases_deck_ready "p1") eq_refl eq_refl);
    [discriminate | left; reflexivity].
Defined.

Lemma stored_template_resolution_witness :
  JS.split_first "{text}" (Store.prompt Sample.summary) = Some ("Summarize: ", "")
  /\ @TextToJson.resolve_prompt (Sample.host []) Cases.world "hello" (Some (JS.JStr "p1"))
     = Return ("Summarize: " +:+ "hello" +:+ "").
Proof.
  assert (Hs : JS.split_first "{text}" (Store.prompt Sample.summary)
               = Some ("Summarize: ", "")) by reflexivity.
  split; [exact Hs|].
  apply (proj1 (@stored_template_resolution (Sample.host []) Cases.world "hello"
                  (JS.JStr "p1") "p1" Sample.summary eq_refl eq_refl eq_refl eq_refl)
           "Summarize: " "" Hs eq_refl).
Defined.

Lemma normalizer_idempotent_witness :
  exists result,
    TextToJson.validate_and_enhance Sample.uuid Sample.q1_update = Return result
    /\ TextToJson.validate_and_enhance (fun _ => "") result = Return result.
Proof.
  eexists. split; [vm_compute; reflexivity|].
  apply (normalizer_idempotent Sample.uuid (fun _ => "") Sample.q1_update _
           sample_uuid_nonempty).
  vm_compute. reflexivity.
Defined.

Lemma visits_keep_count_witness :
  Forall Routes.counted (Store.proposals Sample.shared_world)
  /\ Forall Routes.counted
       (Store.proposals
          (snd (ProposalPage.getServerSideProps Sample.paris 400 (Sample.visit "10.0.0.7")
                  Sample.shared_world))).
Proof.
  assert (Hall : Forall Routes.counted (Store.proposals Sample.shared_world))
    by (repeat constructor).
  split; [exact Hall|].
  exact (visits_keep_count Sample.paris 400 (Sample.visit "10.0.0.7") Sample.shared_world Hall).
Defined.

Lemma page_without_marker_served_as_stored_witness :
  JS.occurrences "localhost:3000" (Store.html Sample.proposal) = 0%nat
  /\ fst (ProposalPage.getServerSideProps Sample.paris 400 (Sample.visit "10.0.0.7")
            Sample.shared_world)
     = ProposalPage.Props "Offer" "<h1>Offer</h1>".
Proof.
  split; [reflexivity|].
  exact (page_without_marker_served_as_stored Sample.paris 400 (Sample.visit "10.0.0.7")
           Sample.shared_world 1 Sample.proposal eq_refl eq_refl).
Defined.

Lemma proposals_get_open_witness :
  ProposalsApi.method Cases.get_request = "GET"
  /\ @ProposalsApi.handler (Sample.host []) Cases.proposal_json Cases.random
       Cases.get_request Sample.shared_world
     = (Http.Json 200 (Cases.proposal_json Sample.proposal), Sample.shared_world)
  /\ @ProposalsApi.handler (Sample.host []) Cases.proposal_json Cases.random
       (ProposalsApi.mkRequest "GET" (ProposalsApi.User (Some "u1")) None None
          (ProposalsApi.One "5f3a9c2b1d4e6f70"))
       Sample.shared_world
     = @ProposalsApi.handler (Sample.host []) Cases.proposal_json Cases.random
         Cases.get_request Sample.shared_world.
Proof.
  split; [reflexivity|].
  destruct (@proposals_get_open (Sample.host []) Cases.proposal_json Cases.random
              Cases.get_request Sample.shared_world eq_refl) as (Hw & Hsame & Hone & _).
  split.
  - rewrite (surjective_pairing (ProposalsApi.handler _ _ _ _)), Hw.
    by rewrite (Hone "5f3a9c2b1d4e6f70" eq_refl).
  - apply (Hsame (ProposalsApi.User (Some "u1")) None None).
Defined.


Lemma deactivated_template_unusable_witness :
  Http.status_of (fst (@SystemPrompts.handler_put (Sample.host []) Cases.template_json
                         Cases.switch_off Cases.world)) = 200%N
  /\ @TextToJson.resolve_prompt (Sample.host []) Cases.world "hello" (Some (JS.JStr "p1"))
     = Return "Summarize: hello"
  /\ @TextToJson.resolve_prompt (Sample.host [])
       (snd (@SystemPrompts.handler_put (Sample.host []) Cases.template_json
               Cases.switch_off Cases.world))
       "hello" (Some (JS.JStr "p1"))
     = Throw "System prompt not found or inactive".
Proof.
  assert (Hs : Http.status_of
                 (fst (@SystemPrompts.handler_put (Sample.host []) Cases.template_json
                         Cases.switch_off Cases.world)) = 200%N) by reflexivity.
  split; [exact Hs|]. split; [reflexivity|].
  apply (@deactivated_template_unusable (Sample.host []) Cases.template_json
           Cases.switch_off Cases.world (JS.JStr "p1") "hello" Hs eq_refl eq_refl).
Defined.

Lemma deleted_template_gone_witness :
  Http.status_of (fst (@SystemPrompts.handler_delete (Sample.host []) Cases.remove_template
                         Cases.world)) = 200%N
  /\ @SystemPrompts.handler_delete (Sample.host []) Cases.remove_template
       (snd (@SystemPrompts.handler_delete (Sample.host []) Cases.remove_template Cases.world))
     = (Http.Json 404 (Http.message "Prompt not found"),
        snd (@SystemPrompts.handler_delete (Sample.host []) Cases.remove_template Cases.world)).
Proof.
  assert (Hs : Http.status_of
                 (fst (@SystemPrompts.handler_delete (Sample.host []) Cases.remove_template
                         Cases.world)) = 200%N) by reflexivity.
  split; [exact Hs|].
  apply (@deleted_template_gone (Sample.host []) Cases.remove_template Cases.world
           (JS.JStr "p1") "hello" Hs eq_refl).
Defined.

Lemma design_library_checks_prefix_witness :
  @Store.getDecryptedApiKey Sample.crypto (Sample.account "sk-not-groq") = Some "sk-not-groq"
  /\ snd (@DesignLibrary.handler_post Sample.crypto (Sample.host Sample.token_completions)
            (Sample.remote "new") "d1" (Sample.design_request "QUJD")
            (Sample.world "sk-not-groq"))
     = Sample.world "sk-not-groq".
Proof.
  assert (Hd : @Store.getDecryptedApiKey Sample.crypto (Sample.account "sk-not-groq")
               = Some "sk-not-groq") by (vm_compute; reflexivity).
  split; [exact Hd|].
  apply (@design_library_checks_prefix Sample.crypto (Sample.host Sample.token_completions)
           (Sample.remote "new") "d1" (Sample.design_request "QUJD")
           (Sample.world "sk-not-groq") "u1" "sk-not-groq" (Sample.account "sk-not-groq")
           eq_refl eq_refl Hd eq_refl).
Defined.


Lemma settings_get_noninterference_witness :
  Settings.hasApiKey (Store.users (Sample.world "gsk_live") !! "u1")
  = Settings.hasApiKey (Store.users (Sample.world "gsk_other") !! "u1")
  /\ fst (Settings.handler (Sample.remote "ok") (Settings.mkRequest "GET" (Some "u1") None)
            (Sample.world "gsk_live"))
     = fst (Settings.handler (Sample.remote "ok") (Settings.mkRequest "GET" (Some "u1") None)
              (Sample.world "gsk_other")).
Proof.
  assert (Hk : Settings.hasApiKey (Store.users (Sample.world "gsk_live") !! "u1")
               = Settings.hasApiKey (Store.users (Sample.world "gsk_other") !! "u1"))
    by (vm_compute; reflexivity).
  split; [exact Hk|].
  apply (settings_get_noninterference (Sample.remote "ok")
           (Settings.mkRequest "GET" (Some "u1") None)
           (Sample.world "gsk_live") (Sample.world "gsk_other") eq_refl).
  intros userId [= <-]. exact Hk.
Defined.

Lemma shapes_agree_on_text_witness :
  DesignLibrary.reshape
    (JS.JObj [("css", JS.JStr ":root{--c:#fff;}"); ("implementationNote", JS.JStr "grid")])
  = DesignLibrary.reshape
      (JS.JObj [("cssVariables", JS.JStr ":root{--c:#fff;}");
                ("analysisResult", JS.JStr "grid")]).
Proof.
  destruct (shapes_agree_on_text ":root{--c:#fff;}" "grid" ltac:(discriminate)
              ltac:(discriminate)) as [Hn Ho].
  rewrite Hn, Ho. reflexivity.
Defined.
